(** * Snippetbox: the request handlers of cmd/web/handlers.go

    A shallow embedding of the HTTP handlers of the Snippetbox web
    application and of the collaborators they call, followed by the
    properties of the validation-and-authentication flow.

    Go values are modelled as follows: [string] is a byte string, [int] is
    an integer of [Z] between [minInt] and [maxInt], [map[string]T] is a
    [gmap string T], a Go [error] is a value of [error], and a function
    returning [(T, error)] returns a pair or a sum.  The handlers are
    programs over the calls they make to their collaborators (session
    manager, data-access layer, form decoder, response writer); a run of a
    handler against a world yields the final world and the sequence of the
    calls made. *)

From Stdlib Require Import ZArith String Ascii List Bool Lia.
From stdpp Require Import gmap strings list.

Local Open Scope string_scope.
Local Open Scope Z_scope.

(** ** Integers of type [int] (64 bits) *)

Definition minInt : Z := - 2 ^ 63.
Definition maxInt : Z := 2 ^ 63 - 1.

(** ** net/http: the status codes the handlers use *)

Module http.
Definition StatusOK : Z := 200.
Definition StatusSeeOther : Z := 303.
Definition StatusBadRequest : Z := 400.
Definition StatusNotFound : Z := 404.
Definition StatusUnprocessableEntity : Z := 422.
Definition StatusInternalServerError : Z := 500.
End http.

(** ** Errors

    A Go [error] value.  The three sentinels are those of the package
    [models] that the handlers test with [errors.Is]; every other failure
    (a datastore fault, a malformed body, a failed token renewal) is an
    [ErrOther] carrying its message. *)

Inductive error : Type :=
| ErrNoRecord
| ErrInvalidCredentials
| ErrDuplicateEmail
| ErrOther (msg : string).

#[global] Instance error_eq_dec : EqDecision error.
Proof. solve_decision. Defined.

Module errors.
(** [errors.Is(err, target)] for the sentinels, which are never wrapped. *)
Definition Is (err target : error) : bool := bool_decide (err = target).
End errors.

(** ** strconv.Atoi *)

Module strconv.

Definition digit (a : ascii) : option Z :=
  let n := Z.of_N (N_of_ascii a) in
  if (48 <=? n) && (n <=? 57) then Some (n - 48) else None.

Fixpoint digits (s : string) (acc : Z) : option Z :=
  match s with
  | EmptyString => Some acc
  | String a s' =>
      match digit a with
      | Some d => digits s' (acc * 10 + d)
      | None => None
      end
  end.

Definition isSign (a : ascii) : bool :=
  Ascii.eqb a "-"%char || Ascii.eqb a "+"%char.

(** [Atoi s] returns the value and the error, as the Go function does: a
    syntax error gives 0, a value out of the range of [int] gives the
    nearest bound, each with a non-nil error. *)
Definition Atoi (s : string) : Z * option error :=
  match s with
  | EmptyString => (0, Some (ErrOther "invalid syntax"))
  | String a rest =>
      let body := if isSign a then rest else s in
      match body with
      | EmptyString => (0, Some (ErrOther "invalid syntax"))
      | _ =>
          match digits body 0 with
          | None => (0, Some (ErrOther "invalid syntax"))
          | Some n =>
              let v := if Ascii.eqb a "-"%char then - n else n in
              if v <? minInt then (minInt, Some (ErrOther "value out of range"))
              else if maxInt <? v then (maxInt, Some (ErrOther "value out of range"))
              else (v, None)
          end
      end
  end.

End strconv.

(** ** Package validator *)

Module validator.

(** Modelled from the spec: the package [snippetbox/internal/validator] is
    not in cmd/web/handlers.go.  A validator accumulates
    field-keyed errors and non-field errors (spec 4.1). *)
Record Validator : Type := mkValidator {
  NonFieldErrors : list string;
  FieldErrors : gmap string string;
}.

(** The zero value of the struct, which [var form T] gives. *)
Definition zero : Validator :=
  {| NonFieldErrors := []; FieldErrors := ∅ |}.

(** Modelled from the spec: [Valid()] is true iff no field errors and no
    non-field errors exist. *)
Definition Valid (v : Validator) : bool :=
  (size (FieldErrors v) =? 0)%nat && (length (NonFieldErrors v) =? 0)%nat.

(** Modelled from the spec: direct error injection; the first message
    of a field wins. *)
Definition AddFieldError (key message : string) (v : Validator) : Validator :=
  match FieldErrors v !! key with
  | Some _ => v
  | None =>
      {| NonFieldErrors := NonFieldErrors v;
         FieldErrors := <[key := message]> (FieldErrors v) |}
  end.

(** Modelled from the spec: direct injection of a form-scoped error. *)
Definition AddNonFieldError (message : string) (v : Validator) : Validator :=
  {| NonFieldErrors := NonFieldErrors v ++ [message];
     FieldErrors := FieldErrors v |}.

(** Modelled from the spec: if [ok] is false, associate [message] with
    [key]; later calls for an already-failed field are ignored. *)
Definition CheckField (ok : bool) (key message : string) (v : Validator) : Validator :=
  if ok then v else AddFieldError key message v.

(** *** The rule functions: pure predicates over the submitted values *)

(** White space of the ASCII range: tab, line feed, vertical tab, form
    feed, carriage return and space. *)
Definition isSpace (a : ascii) : bool :=
  let n := N_of_ascii a in
  ((9 <=? n) && (n <=? 13))%N || (n =? 32)%N.

Fixpoint allSpace (s : string) : bool :=
  match s with
  | EmptyString => true
  | String a s' => isSpace a && allSpace s'
  end.

(** Modelled from the spec: not-blank.  A value is blank when nothing
    is left of it once the surrounding white space is trimmed. *)
Definition NotBlank (value : string) : bool := negb (allSpace value).

(** The number of characters of a UTF-8 string: every byte but the
    continuation bytes [10xxxxxx] starts one. *)
Fixpoint RuneCount (s : string) : Z :=
  match s with
  | EmptyString => 0
  | String a s' =>
      (if (N.land (N_of_ascii a) 192 =? 128)%N then 0 else 1) + RuneCount s'
  end.

(** Modelled from the spec: max-length, in characters. *)
Definition MaxChars (value : string) (n : Z) : bool := RuneCount value <=? n.

(** Modelled from the spec: min-length, in characters. *)
Definition MinChars (value : string) (n : Z) : bool := n <=? RuneCount value.

(** Modelled from the spec: membership in an explicit permitted set. *)
Definition PermittedValue {T : Type} `{EqDecision T}
    (value : T) (permittedValues : list T) : bool :=
  bool_decide (value ∈ permittedValues).

(** A compiled regular expression, as the set of the strings it matches. *)
Definition Regexp : Type := string -> bool.

(** Modelled from the spec: regex match. *)
Definition Matches (value : string) (rx : Regexp) : bool := rx value.

(** Modelled from the spec: equality of two strings. *)
Definition Equal (a b : string) : bool := bool_decide (a = b).

End validator.


(** ** Package models: the rows the data-access layer returns *)

Module models.

(** Modelled from the spec: a snippet row (spec 3); times are seconds. *)
Record Snippet : Type := mkSnippet {
  Snippet_ID : Z;
  Snippet_Title : string;
  Snippet_Content : string;
  Snippet_Created : Z;
  Snippet_Expires : Z;
}.

(** Modelled from the spec: a user row (spec 3). *)
Record User : Type := mkUser {
  User_ID : Z;
  User_Name : string;
  User_Email : string;
  User_HashedPassword : string;
  User_Created : Z;
}.

End models.

(** ** The form structs of handlers.go

    Each form embeds a [validator.Validator]; the methods of the embedded
    struct are promoted to the form, which [Embeds] accounts for. *)

Class Embeds (F : Type) : Type := {
  getValidator : F -> validator.Validator;
  setValidator : validator.Validator -> F -> F;
  getValidator_setValidator : forall v f, getValidator (setValidator v f) = v;
}.

Definition CheckField {F : Type} `{Embeds F}
    (form : F) (ok : bool) (key message : string) : F :=
  setValidator (validator.CheckField ok key message (getValidator form)) form.

Definition AddFieldError {F : Type} `{Embeds F}
    (form : F) (key message : string) : F :=
  setValidator (validator.AddFieldError key message (getValidator form)) form.

Definition AddNonFieldError {F : Type} `{Embeds F}
    (form : F) (message : string) : F :=
  setValidator (validator.AddNonFieldError message (getValidator form)) form.

Definition Valid {F : Type} `{Embeds F} (form : F) : bool :=
  validator.Valid (getValidator form).

Module snippetCreateForm.
Record t : Type := mk {
  Title : string;
  Content : string;
  Expires : Z;
  Validator : validator.Validator;
}.
Definition zero : t := mk "" "" 0 validator.zero.
#[global] Instance embeds : Embeds t :=
  {| getValidator := Validator;
     setValidator v f := mk (Title f) (Content f) (Expires f) v;
     getValidator_setValidator _ _ := eq_refl |}.
End snippetCreateForm.

Module userSignupForm.
Record t : Type := mk {
  Name : string;
  Email : string;
  Password : string;
  Validator : validator.Validator;
}.
Definition zero : t := mk "" "" "" validator.zero.
#[global] Instance embeds : Embeds t :=
  {| getValidator := Validator;
     setValidator v f := mk (Name f) (Email f) (Password f) v;
     getValidator_setValidator _ _ := eq_refl |}.
End userSignupForm.

Module userLoginForm.
Record t : Type := mk {
  Email : string;
  Password : string;
  Validator : validator.Validator;
}.
Definition zero : t := mk "" "" validator.zero.
#[global] Instance embeds : Embeds t :=
  {| getValidator := Validator;
     setValidator v f := mk (Email f) (Password f) v;
     getValidator_setValidator _ _ := eq_refl |}.
End userLoginForm.

Module passwordUpdateForm.
Record t : Type := mk {
  CurrentPassword : string;
  NewPassword : string;
  ConfirmPassword : string;
  Validator : validator.Validator;
}.
Definition zero : t := mk "" "" "" validator.zero.
#[global] Instance embeds : Embeds t :=
  {| getValidator := Validator;
     setValidator v f := mk (CurrentPassword f) (NewPassword f) (ConfirmPassword f) v;
     getValidator_setValidator _ _ := eq_refl |}.
End passwordUpdateForm.

(** The four destinations [decodePostForm] is called with. *)
Inductive formKind : Type :=
| kSnippetCreate
| kUserSignup
| kUserLogin
| kPasswordUpdate.

Definition formOf (k : formKind) : Type :=
  match k with
  | kSnippetCreate => snippetCreateForm.t
  | kUserSignup => userSignupForm.t
  | kUserLogin => userLoginForm.t
  | kPasswordUpdate => passwordUpdateForm.t
  end.

(** What the decoder can fill in a form: the fields that carry a
    [form:"name"] tag, in the order of the struct.  The embedded validator
    of the first three forms is tagged [form:"-"] and is out of the
    decoder's reach; [passwordUpdateForm] embeds [validator.Validator]
    without that tag, so its exported fields [NonFieldErrors] and
    [FieldErrors] are among what a submission can fill. *)
Definition fieldsOf (k : formKind) : Type :=
  match k with
  | kSnippetCreate => (string * string * Z)%type
  | kUserSignup => (string * string * string)%type
  | kUserLogin => (string * string)%type
  | kPasswordUpdate => (string * string * string * validator.Validator)%type
  end.

(** [var form T] followed by a successful decoding: the tagged fields hold
    the submitted values; an embedded validator tagged [form:"-"] is still
    the zero value, the untagged one of [passwordUpdateForm] holds what the
    decoder made of the submission. *)
Definition fill (k : formKind) : fieldsOf k -> formOf k :=
  match k return fieldsOf k -> formOf k with
  | kSnippetCreate => fun '(title, content, expires) =>
      snippetCreateForm.mk title content expires validator.zero
  | kUserSignup => fun '(name, email, password) =>
      userSignupForm.mk name email password validator.zero
  | kUserLogin => fun '(email, password) =>
      userLoginForm.mk email password validator.zero
  | kPasswordUpdate => fun '(current, new, confirm, decoded) =>
      passwordUpdateForm.mk current new confirm decoded
  end.

(** The field [Form any] of the template data. *)
Inductive anyForm : Type :=
| FormSnippetCreate (f : snippetCreateForm.t)
| FormUserSignup (f : userSignupForm.t)
| FormUserLogin (f : userLoginForm.t)
| FormPasswordUpdate (f : passwordUpdateForm.t).

(** Modelled from the spec: the data envelope handed to the template
    renderer; [templateData] is declared outside handlers.go, the
    fields are those the handlers assign, and [Flash] holds the one-shot
    message of the session. *)
Record templateData : Type := mkTemplateData {
  Snippet : option models.Snippet;
  Snippets : list models.Snippet;
  Form : option anyForm;
  User : option models.User;
  Flash : string;
}.

Definition with_Snippet (s : models.Snippet) (d : templateData) : templateData :=
  mkTemplateData (Some s) (Snippets d) (Form d) (User d) (Flash d).
Definition with_Snippets (l : list models.Snippet) (d : templateData) : templateData :=
  mkTemplateData (Snippet d) l (Form d) (User d) (Flash d).
Definition with_Form (f : anyForm) (d : templateData) : templateData :=
  mkTemplateData (Snippet d) (Snippets d) (Some f) (User d) (Flash d).
Definition with_User (u : models.User) (d : templateData) : templateData :=
  mkTemplateData (Snippet d) (Snippets d) (Form d) (Some u) (Flash d).

(** ** Requests and the router parameters *)

Record Request : Type := mkRequest {
  Params : list (string * string);
  Body : string;
}.

Module httprouter.
Definition ParamsFromContext (r : Request) : list (string * string) := Params r.
(** [ByName] returns the value of the first parameter of that name, and
    the empty string when there is none. *)
Fixpoint ByName (ps : list (string * string)) (name : string) : string :=
  match ps with
  | [] => ""
  | (key, value) :: ps' => if bool_decide (key = name) then value else ByName ps' name
  end.
End httprouter.

(** ** The calls a handler makes to its collaborators *)

(** A value stored in the session: the handlers store strings (flash
    messages, the intended destination) and an [int] (the user id). *)
Inductive value : Type :=
| VString (s : string)
| VInt (n : Z).

#[global] Instance value_eq_dec : EqDecision value.
Proof. solve_decision. Defined.

Inductive call : Type :=
(* the form decoder, reached through app.decodePostForm *)
| formDecoder_Decode (k : formKind) (r : Request)
(* app.snippets and app.users, the data-access layer *)
| snippets_Latest
| snippets_Get (id : Z)
| snippets_Insert (title content : string) (expires : Z)
| users_Insert (name email password : string)
| users_Authenticate (email password : string)
| users_Get (id : Z)
| users_PasswordUpdate (id : Z) (currentPassword newPassword : string)
(* app.sessionManager *)
| sessionManager_RenewToken
| sessionManager_Put (key : string) (val : value)
| sessionManager_GetString (key : string)
| sessionManager_GetInt (key : string)
| sessionManager_Remove (key : string)
| sessionManager_PopString (key : string)
(* the operator-facing log *)
| errorLog_Print (err : error)
(* the http.ResponseWriter *)
| w_Write (body : string)
| w_Page (status : Z) (page : string) (data : templateData)
| http_Error (status : Z)
| http_Redirect (url : string) (code : Z).

(** What each call returns to the handler. *)
Definition ans (c : call) : Type :=
  match c with
  | formDecoder_Decode k _ => (error + formOf k)%type
  | snippets_Latest => (error + list models.Snippet)%type
  | snippets_Get _ => (error + models.Snippet)%type
  | snippets_Insert _ _ _ => (error + Z)%type
  | users_Insert _ _ _ => option error
  | users_Authenticate _ _ => (error + Z)%type
  | users_Get _ => (error + models.User)%type
  | users_PasswordUpdate _ _ _ => option error
  | sessionManager_RenewToken => option error
  | sessionManager_Put _ _ => unit
  | sessionManager_GetString _ => string
  | sessionManager_GetInt _ => Z
  | sessionManager_Remove _ => unit
  | sessionManager_PopString _ => string
  | errorLog_Print _ => unit
  | w_Write _ => unit
  | w_Page _ _ _ => unit
  | http_Error _ => unit
  | http_Redirect _ _ => unit
  end.

(** A handler body: it returns, or makes a call and goes on with the
    answer. *)
Inductive prog (A : Type) : Type :=
| Ret (a : A)
| Do (c : call) (k : ans c -> prog A).

Arguments Ret {A} a.
Arguments Do {A} c k.

Fixpoint bind {A B : Type} (p : prog A) (f : A -> prog B) : prog B :=
  match p with
  | Ret a => f a
  | Do c k => Do c (fun x => bind (k x) f)
  end.

Definition perform (c : call) : prog (ans c) := Do c Ret.

Declare Scope prog_scope.
Delimit Scope prog_scope with prog.
Notation "x <- p ;; q" := (bind p (fun x => q))
  (at level 100, p at next level, right associativity) : prog_scope.
Notation "p ;; q" := (bind p (fun _ => q))
  (at level 100, right associativity) : prog_scope.
Local Open Scope prog_scope.

Definition isErr (e : option error) : bool :=
  match e with Some _ => true | None => false end.

(** ** The helpers of the application (helpers.go) *)

(** Modelled from the spec: [app.serverError] is declared outside handlers.go.
    Any other backend error is an opaque HTTP 500; the
    specific error is logged, never shown to the client (spec 4.2, 7). *)
Definition serverError (err : error) : prog unit :=
  perform (errorLog_Print err) ;;
  perform (http_Error http.StatusInternalServerError).

(** Modelled from the spec: [app.clientError] is declared outside handlers.go.
    It answers with the status it is given and no page. *)
Definition clientError (status : Z) : prog unit :=
  perform (http_Error status).

(** Modelled from the spec: [app.notFound] is declared outside handlers.go.
    Not-found conditions yield HTTP 404 (spec 4.2, 7). *)
Definition notFound : prog unit :=
  clientError http.StatusNotFound.

(** Modelled from the spec: [app.newTemplateData] is declared outside handlers.go.
    The flash message of the session is displayed once on
    the next rendered page, then deleted (spec 3, glossary): building the
    data envelope of a page reads the key "flash" and removes it, which is
    what the comment of [snippetView] says of [PopString]. *)
Definition newTemplateData (r : Request) : prog templateData :=
  flash <- perform (sessionManager_PopString "flash") ;;
  Ret (mkTemplateData None [] None None flash).

(** Modelled from the spec: [app.render] is declared outside handlers.go.
    It renders the named template with the data envelope and the
    given status. *)
Definition render (status : Z) (page : string) (data : templateData) : prog unit :=
  perform (w_Page status page data).

(** Modelled from the spec: [app.decodePostForm] is declared outside handlers.go.
    It decodes the submission into the form, or reports
    a malformed submission. *)
Definition decodePostForm (r : Request) (k : formKind) : prog (error + formOf k) :=
  perform (formDecoder_Decode k r).

(** ** The handlers *)

Section Handlers.

(** [validator.EmailRX], the regular expression of e-mail addresses. *)
Variable EmailRX : validator.Regexp.

Definition ping (r : Request) : prog unit :=
  perform (w_Write "OK").

Definition home (r : Request) : prog unit :=
  res <- perform snippets_Latest ;;
  match res with
  | inl err => serverError err
  | inr snippets =>
      data <- newTemplateData r ;;
      let data := with_Snippets snippets data in
      render http.StatusOK "home.html" data
  end.

Definition snippetView (r : Request) : prog unit :=
  let params := httprouter.ParamsFromContext r in
  let '(id, err) := strconv.Atoi (httprouter.ByName params "id") in
  if isErr err || (id <? 1) then
    notFound
  else
    res <- perform (snippets_Get id) ;;
    match res with
    | inl err =>
        if errors.Is err ErrNoRecord then notFound else serverError err
    | inr snippet =>
        data <- newTemplateData r ;;
        let data := with_Snippet snippet data in
        render http.StatusOK "view.html" data
    end.

Definition snippetCreate (r : Request) : prog unit :=
  data <- newTemplateData r ;;
  let data :=
    with_Form (FormSnippetCreate (snippetCreateForm.mk "" "" 365 validator.zero)) data in
  render http.StatusOK "create.html" data.

(** The four [CheckField] calls of [snippetCreatePost], in their order. *)
Definition snippetCreatePost_checks (form : snippetCreateForm.t) : snippetCreateForm.t :=
  let form := CheckField form (validator.NotBlank (snippetCreateForm.Title form))
                "title" "This field cannot be blank" in
  let form := CheckField form (validator.MaxChars (snippetCreateForm.Title form) 100)
                "title" "This field cannot be more than 100 characters long" in
  let form := CheckField form (validator.NotBlank (snippetCreateForm.Content form))
                "content" "This field cannot be blank" in
  let form := CheckField form
                (validator.PermittedValue (snippetCreateForm.Expires form) [1; 7; 365])
                "expires" "This field must equal 1, 7 or 365" in
  form.

(** The decimal digits of a non-negative integer, for [fmt.Sprintf "%d"]. *)
Fixpoint decimal (fuel : nat) (n : Z) (acc : string) : string :=
  match fuel with
  | O => acc
  | S fuel' =>
      let acc' := String (ascii_of_N (Z.to_N (48 + n mod 10))) acc in
      if n <? 10 then acc' else decimal fuel' (n / 10) acc'
  end.

Definition Sprintf_d (n : Z) : string :=
  if n <? 0 then String "-"%char (decimal 20 (- n) "") else decimal 20 n "".

Definition snippetCreatePost (r : Request) : prog unit :=
  res <- decodePostForm r kSnippetCreate ;;
  match res with
  | inl err => clientError http.StatusBadRequest
  | inr form =>
      let form := snippetCreatePost_checks form in
      if negb (Valid form) then
        data <- newTemplateData r ;;
        let data := with_Form (FormSnippetCreate form) data in
        render http.StatusUnprocessableEntity "create.html" data
      else
        res <- perform (snippets_Insert (snippetCreateForm.Title form)
                          (snippetCreateForm.Content form)
                          (snippetCreateForm.Expires form)) ;;
        match res with
        | inl err => serverError err
        | inr id =>
            perform (sessionManager_Put "flash" (VString "Snippet successfully created!")) ;;
            perform (http_Redirect ("/snippet/view/" ++ Sprintf_d id) http.StatusSeeOther)
        end
  end.

Definition userSignup (r : Request) : prog unit :=
  data <- newTemplateData r ;;
  let data := with_Form (FormUserSignup userSignupForm.zero) data in
  render http.StatusOK "signup.html" data.

(** The five [CheckField] calls of [userSignupPost], in their order. *)
Definition userSignupPost_checks (form : userSignupForm.t) : userSignupForm.t :=
  let form := CheckField form (validator.NotBlank (userSignupForm.Name form))
                "name" "This field cannot be blank" in
  let form := CheckField form (validator.NotBlank (userSignupForm.Email form))
                "email" "This field cannot be blank" in
  let form := CheckField form (validator.Matches (userSignupForm.Email form) EmailRX)
                "email" "This field must be a valid email address" in
  let form := CheckField form (validator.NotBlank (userSignupForm.Password form))
                "password" "This field cannot be blank" in
  let form := CheckField form (validator.MinChars (userSignupForm.Password form) 8)
                "password" "This field must be at least 8 characters long" in
  form.

Definition userSignupPost (r : Request) : prog unit :=
  res <- decodePostForm r kUserSignup ;;
  match res with
  | inl err => clientError http.StatusBadRequest
  | inr form =>
      let form := userSignupPost_checks form in
      if negb (Valid form) then
        data <- newTemplateData r ;;
        let data := with_Form (FormUserSignup form) data in
        render http.StatusUnprocessableEntity "signup.html" data
      else
        err <- perform (users_Insert (userSignupForm.Name form)
                          (userSignupForm.Email form)
                          (userSignupForm.Password form)) ;;
        match err with
        | Some err =>
            if errors.Is err ErrDuplicateEmail then
              let form := AddFieldError form "email" "Email address is already in use" in
              data <- newTemplateData r ;;
              let data := with_Form (FormUserSignup form) data in
              render http.StatusUnprocessableEntity "signup.html" data
            else
              serverError err
        | None =>
            perform (sessionManager_Put "flash"
                       (VString "Your signup was successful. Please log in.")) ;;
            perform (http_Redirect "/user/login" http.StatusSeeOther)
        end
  end.

Definition userLogin (r : Request) : prog unit :=
  data <- newTemplateData r ;;
  let data := with_Form (FormUserLogin userLoginForm.zero) data in
  render http.StatusOK "login.html" data.

(** The three [CheckField] calls of [userLoginPost], in their order. *)
Definition userLoginPost_checks (form : userLoginForm.t) : userLoginForm.t :=
  let form := CheckField form (validator.NotBlank (userLoginForm.Email form))
                "email" "This field cannot be blank" in
  let form := CheckField form (validator.Matches (userLoginForm.Email form) EmailRX)
                "email" "This field must be a valid email address" in
  let form := CheckField form (validator.NotBlank (userLoginForm.Password form))
                "password" "This field cannot be blank" in
  form.

Definition userLoginPost (r : Request) : prog unit :=
  res <- decodePostForm r kUserLogin ;;
  match res with
  | inl err => clientError http.StatusBadRequest
  | inr form =>
      let form := userLoginPost_checks form in
      if negb (Valid form) then
        data <- newTemplateData r ;;
        let data := with_Form (FormUserLogin form) data in
        render http.StatusUnprocessableEntity "login.html" data
      else
        res <- perform (users_Authenticate (userLoginForm.Email form)
                          (userLoginForm.Password form)) ;;
        match res with
        | inl err =>
            if errors.Is err ErrInvalidCredentials then
              let form := AddNonFieldError form "Email or password is incorrect" in
              data <- newTemplateData r ;;
              let data := with_Form (FormUserLogin form) data in
              render http.StatusUnprocessableEntity "login.html" data
            else
              serverError err
        | inr id =>
            err <- perform sessionManager_RenewToken ;;
            match err with
            | Some err => serverError err
            | None =>
                perform (sessionManager_Put "authenticatedUserID" (VInt id)) ;;
                targetURL <- perform (sessionManager_GetString "targetURL") ;;
                if negb (bool_decide (targetURL = "")) then
                  perform (http_Redirect targetURL http.StatusSeeOther)
                else
                  perform (http_Redirect "/snippet/create" http.StatusSeeOther)
            end
        end
  end.

Definition userLogoutPost (r : Request) : prog unit :=
  err <- perform sessionManager_RenewToken ;;
  match err with
  | Some err => serverError err
  | None =>
      perform (sessionManager_Remove "authenticatedUserID") ;;
      perform (sessionManager_Put "flash" (VString "You've been logged out successfully!")) ;;
      perform (http_Redirect "/" http.StatusSeeOther)
  end.

Definition about (r : Request) : prog unit :=
  data <- newTemplateData r ;;
  render http.StatusOK "about.html" data.

Definition accountView (r : Request) : prog unit :=
  userID <- perform (sessionManager_GetInt "authenticatedUserID") ;;
  res <- perform (users_Get userID) ;;
  match res with
  | inl err =>
      if errors.Is err ErrNoRecord then
        perform (http_Redirect "/user/login" http.StatusSeeOther)
      else
        serverError err
  | inr user =>
      data <- newTemplateData r ;;
      let data := with_User user data in
      render http.StatusOK "account.html" data
  end.

Definition accountPasswordUpdate (r : Request) : prog unit :=
  data <- newTemplateData r ;;
  let data := with_Form (FormPasswordUpdate passwordUpdateForm.zero) data in
  render http.StatusOK "password.html" data.

(** The five [CheckField] calls of [accountPasswordUpdatePost], in their
    order. *)
Definition accountPasswordUpdatePost_checks (form : passwordUpdateForm.t)
    : passwordUpdateForm.t :=
  let form := CheckField form (validator.NotBlank (passwordUpdateForm.CurrentPassword form))
                "currentPassword" "This field cannot be blank" in
  let form := CheckField form (validator.NotBlank (passwordUpdateForm.NewPassword form))
                "newPassword" "This field cannot be blank" in
  let form := CheckField form (validator.NotBlank (passwordUpdateForm.ConfirmPassword form))
                "newPasswordConfirmation" "This field cannot be blank" in
  let form := CheckField form (validator.MinChars (passwordUpdateForm.NewPassword form) 8)
                "newPassword" "This field must be at least 8 characters long" in
  let form := CheckField form
                (validator.Equal (passwordUpdateForm.NewPassword form)
                   (passwordUpdateForm.ConfirmPassword form))
                "newPasswordConfirmation" "Passwords do not match" in
  form.

Definition accountPasswordUpdatePost (r : Request) : prog unit :=
  res <- decodePostForm r kPasswordUpdate ;;
  match res with
  | inl err => clientError http.StatusBadRequest
  | inr form =>
      let form := accountPasswordUpdatePost_checks form in
      if negb (Valid form) then
        data <- newTemplateData r ;;
        let data := with_Form (FormPasswordUpdate form) data in
        render http.StatusUnprocessableEntity "password.html" data
      else
        userID <- perform (sessionManager_GetInt "authenticatedUserID") ;;
        err <- perform (users_PasswordUpdate userID
                          (passwordUpdateForm.CurrentPassword form)
                          (passwordUpdateForm.NewPassword form)) ;;
        match err with
        | Some err =>
            if errors.Is err ErrInvalidCredentials then
              let form := AddFieldError form "currentPassword" "Current password is incorrect" in
              data <- newTemplateData r ;;
              let data := with_Form (FormPasswordUpdate form) data in
              render http.StatusUnprocessableEntity "password.html" data
            else
              serverError err
        | None =>
            perform (sessionManager_Put "flash"
                       (VString "Your password has been updated successfully!")) ;;
            perform (http_Redirect "/account/view" http.StatusSeeOther)
        end
  end.

End Handlers.

(** ** The collaborators: session manager and data-access layer *)

(** Modelled from the spec: the session of the request, server-side
    key-value state under an identifier (spec 3).  The identifier is
    modelled by a number, and rotating it gives the next one. *)
Record Session : Type := mkSession {
  token : nat;
  values : gmap string value;
}.

Module scs.

Definition Put (key : string) (val : value) (s : Session) : Session :=
  mkSession (token s) (<[key := val]> (values s)).

(** A missing key, or a value of another type, reads as the empty string. *)
Definition GetString (key : string) (s : Session) : string :=
  match values s !! key with
  | Some (VString str) => str
  | _ => ""
  end.

(** A missing key, or a value of another type, reads as 0. *)
Definition GetInt (key : string) (s : Session) : Z :=
  match values s !! key with
  | Some (VInt n) => n
  | _ => 0
  end.

Definition Remove (key : string) (s : Session) : Session :=
  mkSession (token s) (delete key (values s)).

(** Read, then remove: a one-shot read. *)
Definition PopString (key : string) (s : Session) : string * Session :=
  (GetString key s, Remove key s).

(** Session renewal rotates the identifier and preserves the contents
    (glossary). *)
Definition RenewToken (s : Session) : Session :=
  mkSession (S (token s)) (values s).

Definition Exists (key : string) (s : Session) : bool :=
  bool_decide (is_Some (values s !! key)).

End scs.

Section Semantics.

(** The state of the datastore; the data-access layer is a boundary, and a
    collaborator is any behaviour of these signatures. *)
Variable DB : Type.

Record application : Type := mkApplication {
  formDecoder : forall k : formKind, Request -> error + fieldsOf k;
  snippetsLatest : DB -> (error + list models.Snippet) * DB;
  snippetsGet : Z -> DB -> (error + models.Snippet) * DB;
  snippetsInsert : string -> string -> Z -> DB -> (error + Z) * DB;
  usersInsert : string -> string -> string -> DB -> option error * DB;
  usersAuthenticate : string -> string -> DB -> (error + Z) * DB;
  usersGet : Z -> DB -> (error + models.User) * DB;
  usersPasswordUpdate : Z -> string -> string -> DB -> option error * DB;
  (** whether the session store fails to rotate the identifier *)
  renewTokenError : Session -> option error;
}.

Record World : Type := mkWorld {
  session : Session;
  db : DB;
}.

Variable app : application.

Definition onDB {X : Type} (f : DB -> X * DB) (σ : World) : X * World :=
  let '(x, d) := f (db σ) in (x, mkWorld (session σ) d).

Definition onSession (f : Session -> Session) (σ : World) : unit * World :=
  (tt, mkWorld (f (session σ)) (db σ)).

(** One call: the answer of the collaborator and its effect on the world. *)
Definition exec (c : call) (σ : World) : ans c * World :=
  match c return ans c * World with
  | formDecoder_Decode k r =>
      (match formDecoder app k r with
       | inl err => inl err
       | inr fields => inr (fill k fields)
       end, σ)
  | snippets_Latest => onDB (snippetsLatest app) σ
  | snippets_Get id => onDB (snippetsGet app id) σ
  | snippets_Insert title content expires =>
      onDB (snippetsInsert app title content expires) σ
  | users_Insert name email password =>
      onDB (usersInsert app name email password) σ
  | users_Authenticate email password =>
      onDB (usersAuthenticate app email password) σ
  | users_Get id => onDB (usersGet app id) σ
  | users_PasswordUpdate id current new =>
      onDB (usersPasswordUpdate app id current new) σ
  | sessionManager_RenewToken =>
      match renewTokenError app (session σ) with
      | Some err => (Some err, σ)
      | None => (None, mkWorld (scs.RenewToken (session σ)) (db σ))
      end
  | sessionManager_Put key val => onSession (scs.Put key val) σ
  | sessionManager_GetString key => (scs.GetString key (session σ), σ)
  | sessionManager_GetInt key => (scs.GetInt key (session σ), σ)
  | sessionManager_Remove key => onSession (scs.Remove key) σ
  | sessionManager_PopString key =>
      let '(str, s) := scs.PopString key (session σ) in
      (str, mkWorld s (db σ))
  | errorLog_Print _ => (tt, σ)
  | w_Write _ => (tt, σ)
  | w_Page _ _ _ => (tt, σ)
  | http_Error _ => (tt, σ)
  | http_Redirect _ _ => (tt, σ)
  end.

(** A run of a handler body: the result, the final world, and the calls
    made, in their order. *)
Fixpoint run {A : Type} (p : prog A) (σ : World) : A * World * list call :=
  match p with
  | Ret a => (a, σ, [])
  | Do c k =>
      let '(x, σ1) := exec c σ in
      let '(a, σ2, t) := run (k x) σ1 in
      (a, σ2, c :: t)
  end.

Definition final {A : Type} (p : prog A) (σ : World) : World := (run p σ).1.2.
Definition trace {A : Type} (p : prog A) (σ : World) : list call := (run p σ).2.

End Semantics.

Arguments formDecoder {DB} a k r.
Arguments snippetsLatest {DB} a d.
Arguments snippetsGet {DB} a id d.
Arguments snippetsInsert {DB} a title content expires d.
Arguments usersInsert {DB} a name email password d.
Arguments usersAuthenticate {DB} a email password d.
Arguments usersGet {DB} a id d.
Arguments usersPasswordUpdate {DB} a id current new d.
Arguments renewTokenError {DB} a s.
Arguments mkWorld {DB} session db.
Arguments onDB {DB X} f σ.
Arguments onSession {DB} f σ.
Arguments session {DB} w.
Arguments db {DB} w.
Arguments exec {DB} app c σ.
Arguments run {DB} app {A} p σ.
Arguments final {DB} app {A} p σ.
Arguments trace {DB} app {A} p σ.

(** ** Observations on a sequence of calls *)

(** The calls that reach the data-access layer. *)
Definition isDataAccess (c : call) : bool :=
  match c with
  | snippets_Latest | snippets_Get _ | snippets_Insert _ _ _
  | users_Insert _ _ _ | users_Authenticate _ _ | users_Get _
  | users_PasswordUpdate _ _ _ => true
  | _ => false
  end.

(** The calls that write the response. *)
Definition isResponse (c : call) : bool :=
  match c with
  | w_Write _ | w_Page _ _ _ | http_Error _ | http_Redirect _ _ => true
  | _ => false
  end.

(** The calls that render a page. *)
Definition isPage (c : call) : bool :=
  match c with
  | w_Page _ _ _ => true
  | _ => false
  end.

(** The calls that write to the session: its identifier or one of its
    keys. *)
Definition isSessionWrite (c : call) : bool :=
  match c with
  | sessionManager_RenewToken | sessionManager_Put _ _
  | sessionManager_Remove _ | sessionManager_PopString _ => true
  | _ => false
  end.

Definition isRenewToken (c : call) : bool :=
  match c with
  | sessionManager_RenewToken => true
  | _ => false
  end.

Definition isPutKey (key : string) (c : call) : bool :=
  match c with
  | sessionManager_Put k _ => bool_decide (k = key)
  | _ => false
  end.

Definition isRemoveKey (key : string) (c : call) : bool :=
  match c with
  | sessionManager_Remove k => bool_decide (k = key)
  | _ => false
  end.

(** The response of a run: the calls that wrote to the response writer. *)
Definition responses (t : list call) : list call := filter (fun c => Is_true (isResponse c)) t.

(** The data-access calls of a run. *)
Definition dataAccess (t : list call) : list call := filter (fun c => Is_true (isDataAccess c)) t.

(** The calls of a run that write to the session. *)
Definition sessionWrites (t : list call) : list call :=
  filter (fun c => Is_true (isSessionWrite c)) t.

(** [precedes p q t]: the sequence [t] has a call [q], and a call [p]
    comes strictly before its first call [q]. *)
Fixpoint precedes (p q : call -> bool) (t : list call) : bool :=
  match t with
  | [] => false
  | c :: t' =>
      if q c then false
      else if p c then existsb q t'
      else precedes p q t'
  end.

(** ** The form-submitting routes

    Each form is shown by a GET handler and submitted to a POST handler,
    which decodes it, runs its checks and shows the page again when the
    form is not valid. *)

Definition getHandler (k : formKind) : Request -> prog unit :=
  match k with
  | kSnippetCreate => snippetCreate
  | kUserSignup => userSignup
  | kUserLogin => userLogin
  | kPasswordUpdate => accountPasswordUpdate
  end.

Definition postHandler (EmailRX : validator.Regexp) (k : formKind) : Request -> prog unit :=
  match k with
  | kSnippetCreate => snippetCreatePost
  | kUserSignup => userSignupPost EmailRX
  | kUserLogin => userLoginPost EmailRX
  | kPasswordUpdate => accountPasswordUpdatePost
  end.

(** The template of the form. *)
Definition formPage (k : formKind) : string :=
  match k with
  | kSnippetCreate => "create.html"
  | kUserSignup => "signup.html"
  | kUserLogin => "login.html"
  | kPasswordUpdate => "password.html"
  end.

(** The checks the POST handler registers. *)
Definition checksOf (EmailRX : validator.Regexp) (k : formKind) : formOf k -> formOf k :=
  match k return formOf k -> formOf k with
  | kSnippetCreate => snippetCreatePost_checks
  | kUserSignup => userSignupPost_checks EmailRX
  | kUserLogin => userLoginPost_checks EmailRX
  | kPasswordUpdate => accountPasswordUpdatePost_checks
  end.

(** [form.Valid()] at each form. *)
Definition validOf (k : formKind) : formOf k -> bool :=
  match k return formOf k -> bool with
  | kSnippetCreate => @Valid snippetCreateForm.t _
  | kUserSignup => @Valid userSignupForm.t _
  | kUserLogin => @Valid userLoginForm.t _
  | kPasswordUpdate => @Valid passwordUpdateForm.t _
  end.

(** The assignment [data.Form = form]. *)
Definition anyOf (k : formKind) : formOf k -> anyForm :=
  match k return formOf k -> anyForm with
  | kSnippetCreate => FormSnippetCreate
  | kUserSignup => FormUserSignup
  | kUserLogin => FormUserLogin
  | kPasswordUpdate => FormPasswordUpdate
  end.

(** The data envelope [newTemplateData] builds in a session. *)
Definition freshData (s : Session) : templateData :=
  mkTemplateData None [] None None (scs.GetString "flash" s).

(** The redirect target of a login: the intended destination the session
    holds, or the page of the snippet form. *)
Definition loginTarget (s : Session) : string :=
  if bool_decide (scs.GetString "targetURL" s = "") then "/snippet/create"
  else scs.GetString "targetURL" s.

(** ** The handlers of the file, by name *)

Inductive handlerName : Type :=
| hPing
| hHome
| hSnippetView
| hSnippetCreate
| hSnippetCreatePost
| hUserSignup
| hUserSignupPost
| hUserLogin
| hUserLoginPost
| hUserLogoutPost
| hAbout
| hAccountView
| hAccountPasswordUpdate
| hAccountPasswordUpdatePost.

Definition handlerOf (EmailRX : validator.Regexp) (h : handlerName) : Request -> prog unit :=
  match h with
  | hPing => ping
  | hHome => home
  | hSnippetView => snippetView
  | hSnippetCreate => snippetCreate
  | hSnippetCreatePost => snippetCreatePost
  | hUserSignup => userSignup
  | hUserSignupPost => userSignupPost EmailRX
  | hUserLogin => userLogin
  | hUserLoginPost => userLoginPost EmailRX
  | hUserLogoutPost => userLogoutPost
  | hAbout => about
  | hAccountView => accountView
  | hAccountPasswordUpdate => accountPasswordUpdate
  | hAccountPasswordUpdatePost => accountPasswordUpdatePost
  end.

Definition isRedirect (c : call) : bool :=
  match c with
  | http_Redirect _ _ => true
  | _ => false
  end.

Definition isSeeOther (c : call) : bool :=
  match c with
  | http_Redirect _ code => code =? http.StatusSeeOther
  | _ => false
  end.

Definition isGet (c : call) : bool :=
  match c with
  | snippets_Get _ => true
  | _ => false
  end.

(** The calls that may change the datastore. *)
Definition isDataWrite (c : call) : bool :=
  match c with
  | snippets_Insert _ _ _ | users_Insert _ _ _ | users_PasswordUpdate _ _ _ => true
  | _ => false
  end.

(** Modelled from the spec: the package [snippetbox/internal/models] is not
    in cmd/web/handlers.go.  The data-access layer enforces the uniqueness
    of e-mail addresses and surfaces a duplicate as a condition of its own
    (spec 3): an [Insert] that reports [ErrDuplicateEmail] has written
    nothing. *)
Definition refusesDuplicates {DB : Type} (app : application DB) : Prop :=
  forall name email password d,
    (usersInsert app name email password d).1 = Some ErrDuplicateEmail ->
    (usersInsert app name email password d).2 = d.

(** The datastore is down: every call to the data-access layer fails
    with the same unexpected error. *)
Definition datastoreDown {DB : Type} (app : application DB) (msg : string) : Prop :=
  (forall d, (snippetsLatest app d).1 = inl (ErrOther msg))
  /\ (forall id d, (snippetsGet app id d).1 = inl (ErrOther msg))
  /\ (forall title content expires d,
        (snippetsInsert app title content expires d).1 = inl (ErrOther msg))
  /\ (forall name email password d,
        (usersInsert app name email password d).1 = Some (ErrOther msg))
  /\ (forall email password d,
        (usersAuthenticate app email password d).1 = inl (ErrOther msg))
  /\ (forall id d, (usersGet app id d).1 = inl (ErrOther msg))
  /\ (forall id current new d,
        (usersPasswordUpdate app id current new d).1 = Some (ErrOther msg)).

(** ** Test doubles of the collaborators

    A small data-access layer over two tables and a decoder of
    [key=value&key=value] bodies, to run the handlers on concrete
    requests. *)

Module mocks.

Record DB : Type := mkDB {
  users : list models.User;
  snippets : list models.Snippet;
}.

(** Splits [s] at every [sep]. *)
Fixpoint split (sep : ascii) (s : string) : list string :=
  match s with
  | EmptyString => [EmptyString]
  | String a s' =>
      match split sep s' with
      | [] => [String a EmptyString]
      | piece :: pieces =>
          if Ascii.eqb a sep then EmptyString :: piece :: pieces
          else String a piece :: pieces
      end
  end.

(** [key=value] as a pair; a piece without [=] is a key of empty value. *)
Definition keyValue (piece : string) : string * string :=
  match split "="%char piece with
  | [] => (piece, "")
  | key :: rest => (key, String.concat "=" rest)
  end.

Definition hasPercent (s : string) : bool :=
  existsb (Ascii.eqb "%"%char) (list_ascii_of_string s).

(** The posted values, or an error for a body with an escape sequence,
    which this decoder does not read. *)
Definition ParseForm (r : Request) : error + list (string * string) :=
  if hasPercent (Body r) then inl (ErrOther "invalid URL escape")
  else if bool_decide (Body r = "") then inr []
  else inr (map keyValue (split "&"%char (Body r))).

Definition field (vals : list (string * string)) (name : string) : string :=
  httprouter.ByName vals name.

Definition intField (vals : list (string * string)) (name : string) : error + Z :=
  if bool_decide (field vals name = "") then inr 0
  else
    match strconv.Atoi (field vals name) with
    | (n, None) => inr n
    | (_, Some err) => inl err
    end.

(** The key of [FieldErrors[key]]. *)
Definition fieldErrorKey (name : string) : option string :=
  if String.prefix "FieldErrors[" name
     && bool_decide (String.get (String.length name - 1) name = Some "]"%char)
  then Some (String.substring 12 (String.length name - 13) name)
  else None.

(** The exported fields of an untagged embedded validator, as posted:
    every value of [NonFieldErrors], and a message for every
    [FieldErrors[key]]. *)
Fixpoint decodedValidator (vals : list (string * string)) : validator.Validator :=
  match vals with
  | [] => validator.zero
  | (name, val) :: vals' =>
      let v := decodedValidator vals' in
      if bool_decide (name = "NonFieldErrors") then
        validator.mkValidator (val :: validator.NonFieldErrors v) (validator.FieldErrors v)
      else
        match fieldErrorKey name with
        | Some key =>
            validator.mkValidator (validator.NonFieldErrors v)
              (<[key := val]> (validator.FieldErrors v))
        | None => v
        end
  end.

Definition Decode (k : formKind) (r : Request) : error + fieldsOf k :=
  match ParseForm r with
  | inl err => inl err
  | inr vals =>
      match k return error + fieldsOf k with
      | kSnippetCreate =>
          match intField vals "expires" with
          | inl err => inl err
          | inr expires => inr (field vals "title", field vals "content", expires)
          end
      | kUserSignup =>
          inr (field vals "name", field vals "email", field vals "password")
      | kUserLogin =>
          inr (field vals "email", field vals "password")
      | kPasswordUpdate =>
          inr (field vals "currentPassword", field vals "newPassword",
               field vals "newPasswordConfirmation", decodedValidator vals)
      end
  end.

Definition byEmail (email : string) (u : models.User) : bool :=
  bool_decide (models.User_Email u = email).

Definition nextID {A : Type} (rows : list A) : Z := Z.of_nat (length rows) + 1.

Definition SnippetGet (id : Z) (d : DB) : (error + models.Snippet) * DB :=
  match find (fun s => models.Snippet_ID s =? id) (snippets d) with
  | Some s => (inr s, d)
  | None => (inl ErrNoRecord, d)
  end.

Definition SnippetInsert (title content : string) (expires : Z) (d : DB)
    : (error + Z) * DB :=
  let id := nextID (snippets d) in
  (inr id,
   mkDB (users d) (snippets d ++ [models.mkSnippet id title content 0 (expires * 86400)])).

(** The table keeps e-mail addresses unique: a second row of the same
    address is refused with [ErrDuplicateEmail]. *)
Definition UserInsert (name email password : string) (d : DB) : option error * DB :=
  if existsb (byEmail email) (users d) then (Some ErrDuplicateEmail, d)
  else
    (None,
     mkDB (users d ++ [models.mkUser (nextID (users d)) name email password 0])
       (snippets d)).

Definition UserAuthenticate (email password : string) (d : DB) : (error + Z) * DB :=
  match find (byEmail email) (users d) with
  | Some u =>
      if bool_decide (models.User_HashedPassword u = password)
      then (inr (models.User_ID u), d)
      else (inl ErrInvalidCredentials, d)
  | None => (inl ErrInvalidCredentials, d)
  end.

Definition UserGet (id : Z) (d : DB) : (error + models.User) * DB :=
  match find (fun u => models.User_ID u =? id) (users d) with
  | Some u => (inr u, d)
  | None => (inl ErrNoRecord, d)
  end.

Definition setPassword (id : Z) (password : string) (u : models.User) : models.User :=
  if models.User_ID u =? id
  then models.mkUser id (models.User_Name u) (models.User_Email u) password
         (models.User_Created u)
  else u.

Definition UserPasswordUpdate (id : Z) (current new : string) (d : DB)
    : option error * DB :=
  match find (fun u => models.User_ID u =? id) (users d) with
  | Some u =>
      if bool_decide (models.User_HashedPassword u = current)
      then (None, mkDB (map (setPassword id new) (users d)) (snippets d))
      else (Some ErrInvalidCredentials, d)
  | None => (Some ErrNoRecord, d)
  end.

(** [failing] makes the session store refuse to rotate the identifier. *)
Definition app (failing : bool) : application DB :=
  {| formDecoder := Decode;
     snippetsLatest := fun d => (inr (snippets d), d);
     snippetsGet := SnippetGet;
     snippetsInsert := SnippetInsert;
     usersInsert := UserInsert;
     usersAuthenticate := UserAuthenticate;
     usersGet := UserGet;
     usersPasswordUpdate := UserPasswordUpdate;
     renewTokenError := fun _ =>
       if failing then Some (ErrOther "session store unavailable") else None |}.

(** The application when the datastore refuses every connection. *)
Definition down : application DB :=
  {| formDecoder := Decode;
     snippetsLatest := fun d => (inl (ErrOther "connection refused"), d);
     snippetsGet := fun _ d => (inl (ErrOther "connection refused"), d);
     snippetsInsert := fun _ _ _ d => (inl (ErrOther "connection refused"), d);
     usersInsert := fun _ _ _ d => (Some (ErrOther "connection refused"), d);
     usersAuthenticate := fun _ _ d => (inl (ErrOther "connection refused"), d);
     usersGet := fun _ d => (inl (ErrOther "connection refused"), d);
     usersPasswordUpdate := fun _ _ _ d => (Some (ErrOther "connection refused"), d);
     renewTokenError := fun _ => None |}.

(** An address is taken to be one that holds an [@]. *)
Definition EmailRX : validator.Regexp :=
  fun s => existsb (Ascii.eqb "@"%char) (list_ascii_of_string s).

Definition alice : models.User :=
  models.mkUser 1 "Alice" "alice@example.com" "pa55word!" 0.

Definition db0 : DB :=
  mkDB [alice] [models.mkSnippet 1 "An old silent pond" "A frog jumps in" 0 604800].

Definition session0 : Session := mkSession 7 ∅.

(** A session that remembers the page asked for before the login. *)
Definition sessionTarget : Session :=
  mkSession 7 {[ "targetURL" := VString "/account/view" ]}.

(** The session of a logged-in user. *)
Definition sessionAlice : Session :=
  mkSession 8 {[ "authenticatedUserID" := VInt 1 ]}.

(** A session with a flash message that no page has shown yet. *)
Definition sessionFlash : Session :=
  mkSession 7 {[ "flash" := VString "You've been logged out successfully!" ]}.

Definition post (body : string) : Request := mkRequest [] body.

Definition get (id : string) : Request := mkRequest [("id", id)] "".

End mocks.

(** * Properties *)

(** ** The validator *)

Lemma Valid_zero : validator.Valid validator.zero = true.
Proof. reflexivity. Qed.

Lemma Valid_AddFieldError key message v :
  validator.Valid (validator.AddFieldError key message v) = false.
Proof.
  unfold validator.AddFieldError, validator.Valid.
  destruct (validator.FieldErrors v !! key) as [old|] eqn:Hkey; simpl.
  - apply andb_false_intro1, Nat.eqb_neq.
    intros Hsize. apply map_size_empty_iff in Hsize.
    rewrite Hsize, lookup_empty in Hkey. discriminate.
  - rewrite map_size_insert_None by assumption. reflexivity.
Qed.

Lemma Valid_AddNonFieldError message v :
  validator.Valid (validator.AddNonFieldError message v) = false.
Proof.
  unfold validator.AddNonFieldError, validator.Valid; simpl.
  rewrite length_app; simpl.
  apply andb_false_intro2, Nat.eqb_neq. lia.
Qed.

(** A check that passes leaves the validity as it is, a check that fails
    makes the validator invalid whatever it held. *)
Lemma Valid_validator_CheckField ok key message v :
  validator.Valid (validator.CheckField ok key message v) = ok && validator.Valid v.
Proof.
  destruct ok; simpl; [reflexivity | apply Valid_AddFieldError].
Qed.

Lemma Valid_CheckField {F : Type} `{Embeds F} (form : F) ok key message :
  Valid (CheckField form ok key message) = ok && Valid form.
Proof.
  unfold Valid, CheckField.
  rewrite getValidator_setValidator. apply Valid_validator_CheckField.
Qed.

Lemma AddFieldError_lookup key message v :
  validator.Valid v = true ->
  validator.FieldErrors (validator.AddFieldError key message v) !! key = Some message.
Proof.
  unfold validator.Valid, validator.AddFieldError. intros Hvalid.
  apply andb_prop in Hvalid as [Hsize _].
  apply Nat.eqb_eq, map_size_empty_iff in Hsize.
  rewrite Hsize, lookup_empty; simpl. apply lookup_insert_eq.
Qed.

Lemma PermittedValue_spec (value : Z) (permitted : list Z) :
  validator.PermittedValue value permitted = true <-> value ∈ permitted.
Proof. unfold validator.PermittedValue. apply bool_decide_eq_true. Qed.

Lemma Equal_spec a b : validator.Equal a b = true <-> a = b.
Proof. unfold validator.Equal. apply bool_decide_eq_true. Qed.

Lemma NotBlank_empty : validator.NotBlank "" = false.
Proof. reflexivity. Qed.

Lemma RuneCount_nonneg s : 0 <= validator.RuneCount s.
Proof.
  induction s as [|a s IH]; simpl; [lia|].
  destruct (N.land (N_of_ascii a) 192 =? 128)%N; lia.
Qed.

Lemma RuneCount_le_length s : validator.RuneCount s <= Z.of_nat (String.length s).
Proof.
  induction s as [|a s IH]; simpl String.length; simpl validator.RuneCount; [lia|].
  destruct (N.land (N_of_ascii a) 192 =? 128)%N; lia.
Qed.

(** C1: a submitted snippet-create form is valid after the checks of
    [snippetCreatePost] if and only if the title is not blank and has at
    most 100 characters, the content is not blank, and the expiry is 1, 7
    or 365. *)
Theorem snippetCreateForm_valid_iff (title content : string) (expires : Z) :
  Valid (snippetCreatePost_checks (fill kSnippetCreate (title, content, expires))) = true
  <-> validator.NotBlank title = true
      /\ validator.RuneCount title <= 100
      /\ validator.NotBlank content = true
      /\ (expires = 1 \/ expires = 7 \/ expires = 365).
Proof.
  unfold snippetCreatePost_checks.
  rewrite !Valid_CheckField. cbn [fill].
  cbn [CheckField setValidator getValidator snippetCreateForm.embeds
       snippetCreateForm.Title snippetCreateForm.Content snippetCreateForm.Expires
       snippetCreateForm.Validator].
  change (Valid (snippetCreateForm.mk title content expires validator.zero)) with true.
  rewrite andb_true_r.
  rewrite !andb_true_iff, PermittedValue_spec.
  unfold validator.MaxChars. rewrite Z.leb_le.
  rewrite !elem_of_cons, elem_of_nil.
  tauto.
Qed.

(** The checks of [accountPasswordUpdatePost] add to what the decoder left
    in the embedded validator: the form is valid after them if and only if
    the decoder left no error there and the five conditions hold. *)
Lemma passwordUpdateForm_valid_iff (current new confirm : string)
    (decoded : validator.Validator) :
  Valid (accountPasswordUpdatePost_checks
           (fill kPasswordUpdate (current, new, confirm, decoded))) = true
  <-> validator.Valid decoded = true
      /\ validator.NotBlank current = true
      /\ validator.NotBlank new = true
      /\ validator.NotBlank confirm = true
      /\ 8 <= validator.RuneCount new
      /\ new = confirm.
Proof.
  unfold accountPasswordUpdatePost_checks.
  rewrite !Valid_CheckField. cbn [fill].
  cbn [CheckField setValidator getValidator passwordUpdateForm.embeds
       passwordUpdateForm.CurrentPassword passwordUpdateForm.NewPassword
       passwordUpdateForm.ConfirmPassword passwordUpdateForm.Validator].
  change (Valid (passwordUpdateForm.mk current new confirm decoded))
    with (validator.Valid decoded).
  rewrite !andb_true_iff, Equal_spec.
  unfold validator.MinChars. rewrite Z.leb_le.
  tauto.
Qed.

(** C5: the claim fails on the code.  [passwordUpdateForm] embeds its
    validator without the [form:"-"] tag of the three other forms, so a
    submission can post [NonFieldErrors] itself: here the current password,
    the new password and the confirmation are not blank, the new password
    has 13 characters and equals the confirmation, and yet the form is not
    valid after the checks; the handler shows password.html again with HTTP
    422 and never calls [PasswordUpdate]. *)
Theorem passwordUpdateForm_injected_error :
  let app := mocks.app false in
  let r := mocks.post
             "currentPassword=pa55word!&newPassword=correct horse&newPasswordConfirmation=correct horse&NonFieldErrors=x" in
  let σ := mkWorld mocks.sessionAlice mocks.db0 in
  let decoded := validator.mkValidator ["x"] ∅ in
  let form := accountPasswordUpdatePost_checks
                (fill kPasswordUpdate ("pa55word!", "correct horse", "correct horse", decoded)) in
  formDecoder app kPasswordUpdate r
    = inr ("pa55word!", "correct horse", "correct horse", decoded)
  /\ (validator.NotBlank "pa55word!" = true
      /\ validator.NotBlank "correct horse" = true
      /\ 8 <= validator.RuneCount "correct horse"
      /\ "correct horse" = "correct horse")
  /\ Valid form = false
  /\ trace app (accountPasswordUpdatePost r) σ
     = [formDecoder_Decode kPasswordUpdate r;
        sessionManager_PopString "flash";
        w_Page http.StatusUnprocessableEntity "password.html"
          (with_Form (FormPasswordUpdate form) (freshData (session σ)))]
  /\ dataAccess (trace app (accountPasswordUpdatePost r) σ) = []
  /\ Form (with_Form (FormPasswordUpdate form) (freshData (session σ)))
     = Some (FormPasswordUpdate form)
  /\ validator.NonFieldErrors (passwordUpdateForm.Validator form) = ["x"].
Proof.
  intros app r σ decoded form.
  split; [vm_compute; reflexivity|].
  split; [repeat split; vm_compute; congruence|].
  split; [vm_compute; reflexivity|].
  split; [vm_compute; reflexivity|].
  split; [vm_compute; reflexivity|].
  split; reflexivity.
Qed.

(** The same submission without the posted [NonFieldErrors] is valid. *)
Example passwordUpdateForm_plain_submission :
  let r := mocks.post
             "currentPassword=pa55word!&newPassword=correct horse&newPasswordConfirmation=correct horse" in
  formDecoder (mocks.app false) kPasswordUpdate r
    = inr ("pa55word!", "correct horse", "correct horse", validator.zero)
  /\ Valid (accountPasswordUpdatePost_checks
              (fill kPasswordUpdate
                 ("pa55word!", "correct horse", "correct horse", validator.zero))) = true.
Proof. split; vm_compute; reflexivity. Qed.

(** ** Runs *)

Lemma run_bind {DB A B} (app : application DB) (p : prog A) (f : A -> prog B) σ :
  run app (bind p f) σ =
  let '(a, σ1, t1) := run app p σ in
  let '(b, σ2, t2) := run app (f a) σ1 in
  (b, σ2, (t1 ++ t2)%list).
Proof.
  revert σ. induction p as [a|c k IH]; intros σ; simpl.
  - destruct (run app (f a) σ) as [[b σ2] t2]. reflexivity.
  - destruct (exec app c σ) as [x σ1]. rewrite IH.
    destruct (run app (k x) σ1) as [[a σ2] t1].
    destruct (run app (f a) σ2) as [[b σ3] t2]. reflexivity.
Qed.

(** The calls that touch neither the session nor the datastore. *)
Lemma exec_response {DB} (app : application DB) c σ :
  isResponse c = true -> (exec app c σ).2 = σ.
Proof. destruct c; simpl; intros Hc; try discriminate; reflexivity. Qed.

(** Only the data-access calls change the datastore. *)
Lemma exec_db {DB} (app : application DB) c σ :
  isDataAccess c = false -> db (exec app c σ).2 = db σ.
Proof.
  destruct c; simpl; intros Hc; try discriminate; try reflexivity.
  destruct (renewTokenError app (session σ)); reflexivity.
Qed.

Lemma run_db {DB A} (app : application DB) (p : prog A) σ :
  dataAccess (trace app p σ) = [] -> db (final app p σ) = db σ.
Proof.
  unfold trace, final, dataAccess. revert σ.
  induction p as [a|c k IH]; intros σ; simpl; [reflexivity|].
  pose proof (exec_db app c σ) as Hc.
  destruct (exec app c σ) as [x σ1]. specialize (IH x σ1).
  destruct (run app (k x) σ1) as [[a σ2] t]. simpl in *.
  rewrite filter_cons. destruct (isDataAccess c); simpl.
  - discriminate.
  - intros Ht. rewrite IH by assumption. apply Hc. reflexivity.
Qed.

Ltac step_run :=
  cbn [run bind perform exec onDB onSession decodePostForm newTemplateData render
       clientError notFound serverError fst snd negb].

(** ** Malformed submissions *)

(** C8: for every POST handler of a form, a submission that fails to
    decode is answered with HTTP 400 and nothing else: no page is rendered,
    so the form is not shown again, unlike on the 422 path; neither the
    session nor the datastore is touched. *)
Theorem decode_failure_bad_request {DB} (app : application DB)
    (EmailRX : validator.Regexp) (k : formKind) (r : Request) (σ : World DB) (err : error) :
  formDecoder app k r = inl err ->
  trace app (postHandler EmailRX k r) σ
    = [formDecoder_Decode k r; http_Error http.StatusBadRequest]
  /\ responses (trace app (postHandler EmailRX k r) σ) = [http_Error 400]
  /\ existsb isPage (trace app (postHandler EmailRX k r) σ) = false
  /\ final app (postHandler EmailRX k r) σ = σ.
Proof.
  intros Hdec. unfold trace, final.
  destruct k; cbn [postHandler];
    unfold snippetCreatePost, userSignupPost, userLoginPost, accountPasswordUpdatePost;
    step_run; rewrite Hdec; step_run; repeat split; reflexivity.
Qed.

Lemma decode_failure_bad_request_witness :
  let r := mocks.post "title=100%&content=x&expires=7" in
  let σ := mkWorld mocks.session0 mocks.db0 in
  formDecoder (mocks.app false) kSnippetCreate r = inl (ErrOther "invalid URL escape")
  /\ (trace (mocks.app false) (postHandler mocks.EmailRX kSnippetCreate r) σ
        = [formDecoder_Decode kSnippetCreate r; http_Error http.StatusBadRequest]
      /\ responses (trace (mocks.app false) (postHandler mocks.EmailRX kSnippetCreate r) σ)
           = [http_Error 400]
      /\ existsb isPage (trace (mocks.app false) (postHandler mocks.EmailRX kSnippetCreate r) σ)
           = false
      /\ final (mocks.app false) (postHandler mocks.EmailRX kSnippetCreate r) σ = σ).
Proof.
  intros r σ. split.
  - vm_compute. reflexivity.
  - apply (decode_failure_bad_request (mocks.app false) mocks.EmailRX kSnippetCreate r σ
             (ErrOther "invalid URL escape")).
    vm_compute. reflexivity.
Defined.

(** ** Forms that are not valid *)

(** The GET handler of a form renders the page of the form. *)
Lemma getHandler_page {DB} (app : application DB) (k : formKind) (r : Request) (σ : World DB) :
  exists data,
    responses (trace app (getHandler k r) σ) = [w_Page http.StatusOK (formPage k) data].
Proof.
  unfold trace.
  destruct k; cbn [getHandler formPage];
    unfold snippetCreate, userSignup, userLogin, accountPasswordUpdate;
    step_run; eexists; reflexivity.
Qed.

(** C2: for every POST handler of a form and every decoded submission, if
    the form is not valid after the checks, the handler renders the page of
    the form again with HTTP 422 and the checked form, makes no call to the
    data-access layer (no Insert, Authenticate or PasswordUpdate), and
    leaves the datastore as it was. *)
Theorem invalid_form_unprocessable {DB} (app : application DB)
    (EmailRX : validator.Regexp) (k : formKind) (r : Request) (σ : World DB)
    (fields : fieldsOf k) :
  formDecoder app k r = inr fields ->
  validOf k (checksOf EmailRX k (fill k fields)) = false ->
  responses (trace app (postHandler EmailRX k r) σ)
    = [w_Page http.StatusUnprocessableEntity (formPage k)
         (with_Form (anyOf k (checksOf EmailRX k (fill k fields)))
            (freshData (session σ)))]
  /\ (exists data, responses (trace app (getHandler k r) σ)
                   = [w_Page http.StatusOK (formPage k) data])
  /\ dataAccess (trace app (postHandler EmailRX k r) σ) = []
  /\ db (final app (postHandler EmailRX k r) σ) = db σ.
Proof.
  intros Hdec Hinvalid.
  assert (Hrun :
    trace app (postHandler EmailRX k r) σ
    = [formDecoder_Decode k r; sessionManager_PopString "flash";
       w_Page http.StatusUnprocessableEntity (formPage k)
         (with_Form (anyOf k (checksOf EmailRX k (fill k fields)))
            (freshData (session σ)))]).
  { unfold trace.
    destruct k; cbn [postHandler validOf checksOf anyOf formPage] in *;
      unfold snippetCreatePost, userSignupPost, userLoginPost, accountPasswordUpdatePost;
      step_run; rewrite Hdec; step_run; rewrite Hinvalid; step_run; reflexivity. }
  split; [rewrite Hrun; reflexivity|].
  split; [apply getHandler_page|].
  assert (Hnone : dataAccess (trace app (postHandler EmailRX k r) σ) = [])
    by (rewrite Hrun; reflexivity).
  split; [exact Hnone | apply run_db, Hnone].
Qed.

Lemma invalid_form_unprocessable_witness :
  let r := mocks.post "title=&content=A frog jumps in&expires=30" in
  let σ := mkWorld mocks.session0 mocks.db0 in
  let fields : fieldsOf kSnippetCreate := ("", "A frog jumps in", 30) in
  formDecoder (mocks.app false) kSnippetCreate r = inr fields
  /\ validOf kSnippetCreate (checksOf mocks.EmailRX kSnippetCreate (fill kSnippetCreate fields))
     = false
  /\ (responses (trace (mocks.app false) (postHandler mocks.EmailRX kSnippetCreate r) σ)
        = [w_Page http.StatusUnprocessableEntity (formPage kSnippetCreate)
             (with_Form
                (anyOf kSnippetCreate
                   (checksOf mocks.EmailRX kSnippetCreate (fill kSnippetCreate fields)))
                (freshData (session σ)))]
      /\ (exists data,
            responses (trace (mocks.app false) (getHandler kSnippetCreate r) σ)
            = [w_Page http.StatusOK (formPage kSnippetCreate) data])
      /\ dataAccess (trace (mocks.app false) (postHandler mocks.EmailRX kSnippetCreate r) σ) = []
      /\ db (final (mocks.app false) (postHandler mocks.EmailRX kSnippetCreate r) σ) = db σ).
Proof.
  intros r σ fields.
  split; [vm_compute; reflexivity|].
  split; [vm_compute; reflexivity|].
  apply (invalid_form_unprocessable (mocks.app false) mocks.EmailRX kSnippetCreate r σ fields);
    vm_compute; reflexivity.
Defined.

(** ** The snippet pages *)

(** C10: for every request, the GET handler of the snippet form renders
    create.html with status 200, and the form of the page ([data.Form]) is
    a snippet form whose expiry is 365, whose title and content are empty,
    and which carries no error. *)
Theorem snippetCreate_default_expiry {DB} (app : application DB) (r : Request) (σ : World DB) :
  exists data form,
    responses (trace app (snippetCreate r) σ) = [w_Page http.StatusOK "create.html" data]
    /\ Form data = Some (FormSnippetCreate form)
    /\ snippetCreateForm.Expires form = 365
    /\ snippetCreateForm.Title form = ""
    /\ snippetCreateForm.Content form = ""
    /\ snippetCreateForm.Validator form = validator.zero.
Proof.
  exists (with_Form (FormSnippetCreate (snippetCreateForm.mk "" "" 365 validator.zero))
            (freshData (session σ))).
  exists (snippetCreateForm.mk "" "" 365 validator.zero).
  repeat split.
Qed.

Example Atoi_zero : strconv.Atoi "0" = (0, None).
Proof. reflexivity. Qed.

Example Atoi_minus_one : strconv.Atoi "-1" = (-1, None).
Proof. reflexivity. Qed.

Example Atoi_abc : strconv.Atoi "abc" = (0, Some (ErrOther "invalid syntax")).
Proof. reflexivity. Qed.

Example Atoi_empty : strconv.Atoi "" = (0, Some (ErrOther "invalid syntax")).
Proof. reflexivity. Qed.

Example Atoi_too_large :
  strconv.Atoi "9223372036854775808" = (maxInt, Some (ErrOther "value out of range")).
Proof. reflexivity. Qed.

(** C6: for every GET request to view a snippet, if the id parameter is
    not a number ([Atoi] reports an error), or is a number less than 1, or
    is a number for which the data-access layer reports that no record
    exists, the handler answers with HTTP 404 and renders no page. *)
Theorem snippetView_not_found {DB} (app : application DB) (r : Request) (σ : World DB) :
  let parsed := strconv.Atoi (httprouter.ByName (httprouter.ParamsFromContext r) "id") in
  isErr parsed.2 = true
  \/ parsed.1 < 1
  \/ (snippetsGet app parsed.1 (db σ)).1 = inl ErrNoRecord ->
  responses (trace app (snippetView r) σ) = [http_Error http.StatusNotFound]
  /\ existsb isPage (trace app (snippetView r) σ) = false.
Proof.
  intros parsed Hcase. unfold trace, snippetView. fold parsed.
  destruct parsed as [id err] eqn:Hparsed. cbn [fst snd] in Hcase.
  destruct (isErr err || (id <? 1)) eqn:Hguard.
  - step_run. split; reflexivity.
  - apply orb_false_elim in Hguard as [Herr Hid]. apply Z.ltb_ge in Hid.
    destruct Hcase as [Hcase | [Hcase | Hcase]]; [congruence | lia |].
    destruct (snippetsGet app id (db σ)) as [res d'] eqn:Hget.
    cbn [fst] in Hcase. subst res.
    step_run. unfold onDB. rewrite Hget. step_run. split; reflexivity.
Qed.

Lemma snippetView_not_found_witness :
  let σ := mkWorld mocks.session0 mocks.db0 in
  let app := mocks.app false in
  (isErr (strconv.Atoi "abc").2 = true
   /\ responses (trace app (snippetView (mocks.get "abc")) σ) = [http_Error 404]
   /\ existsb isPage (trace app (snippetView (mocks.get "abc")) σ) = false)
  /\ ((strconv.Atoi "0").1 < 1
      /\ responses (trace app (snippetView (mocks.get "0")) σ) = [http_Error 404]
      /\ existsb isPage (trace app (snippetView (mocks.get "0")) σ) = false)
  /\ ((strconv.Atoi "-1").1 < 1
      /\ responses (trace app (snippetView (mocks.get "-1")) σ) = [http_Error 404]
      /\ existsb isPage (trace app (snippetView (mocks.get "-1")) σ) = false)
  /\ ((snippetsGet app (strconv.Atoi "2").1 (db σ)).1 = inl ErrNoRecord
      /\ responses (trace app (snippetView (mocks.get "2")) σ) = [http_Error 404]
      /\ existsb isPage (trace app (snippetView (mocks.get "2")) σ) = false).
Proof.
  intros σ app.
  split; [|split; [|split]].
  - split; [reflexivity|].
    apply (snippetView_not_found app (mocks.get "abc") σ). left. reflexivity.
  - split; [vm_compute; reflexivity|].
    apply (snippetView_not_found app (mocks.get "0") σ). right. left. vm_compute. reflexivity.
  - split; [vm_compute; reflexivity|].
    apply (snippetView_not_found app (mocks.get "-1") σ). right. left. vm_compute. reflexivity.
  - split; [vm_compute; reflexivity|].
    apply (snippetView_not_found app (mocks.get "2") σ). right. right. vm_compute. reflexivity.
Defined.

(** A snippet that exists is rendered with view.html and status 200. *)
Example snippetView_found :
  responses (trace (mocks.app false) (snippetView (mocks.get "1"))
               (mkWorld mocks.session0 mocks.db0))
  = [w_Page 200 "view.html"
       (with_Snippet (models.mkSnippet 1 "An old silent pond" "A frog jumps in" 0 604800)
          (freshData mocks.session0))].
Proof. vm_compute. reflexivity. Qed.

(** ** Signup *)

(** The checks change the embedded validator only. *)
Lemma userSignupPost_checks_fields rx form :
  userSignupForm.Name (userSignupPost_checks rx form) = userSignupForm.Name form
  /\ userSignupForm.Email (userSignupPost_checks rx form) = userSignupForm.Email form
  /\ userSignupForm.Password (userSignupPost_checks rx form) = userSignupForm.Password form.
Proof. repeat split. Qed.

Lemma userLoginPost_checks_fields rx form :
  userLoginForm.Email (userLoginPost_checks rx form) = userLoginForm.Email form
  /\ userLoginForm.Password (userLoginPost_checks rx form) = userLoginForm.Password form.
Proof. repeat split. Qed.

(** C7: for every signup submission that decodes and passes the checks,
    if the data-access [Insert] reports the duplicate-email condition, the
    handler renders signup.html again with HTTP 422; the form of the page
    ([data.Form]) holds the submitted values and the field error "Email
    address is already in use" under the key "email"; the refused [Insert]
    is the only data-access call, so the datastore is as that call left
    it: unchanged, with no new user row, for a data-access layer that
    refuses duplicates without writing. *)
Theorem signup_duplicate_email {DB} (app : application DB)
    (EmailRX : validator.Regexp) (r : Request) (σ : World DB)
    (name email password : string) :
  formDecoder app kUserSignup r = inr (name, email, password) ->
  Valid (userSignupPost_checks EmailRX (fill kUserSignup (name, email, password))) = true ->
  (usersInsert app name email password (db σ)).1 = Some ErrDuplicateEmail ->
  exists data form,
    responses (trace app (userSignupPost EmailRX r) σ)
      = [w_Page http.StatusUnprocessableEntity "signup.html" data]
    /\ Form data = Some (FormUserSignup form)
    /\ validator.FieldErrors (userSignupForm.Validator form) !! "email"
       = Some "Email address is already in use"
    /\ (userSignupForm.Name form, userSignupForm.Email form, userSignupForm.Password form)
       = (name, email, password)
    /\ dataAccess (trace app (userSignupPost EmailRX r) σ) = [users_Insert name email password]
    /\ db (final app (userSignupPost EmailRX r) σ)
       = (usersInsert app name email password (db σ)).2
    /\ (refusesDuplicates app -> db (final app (userSignupPost EmailRX r) σ) = db σ).
Proof.
  intros Hdec Hvalid Hrefused.
  destruct (usersInsert app name email password (db σ)) as [res d'] eqn:Hinsert.
  cbn [fst snd] in *. subst res.
  set (checked := userSignupPost_checks EmailRX (fill kUserSignup (name, email, password))) in *.
  exists (with_Form
            (FormUserSignup (AddFieldError checked "email" "Email address is already in use"))
            (freshData (session σ))).
  exists (AddFieldError checked "email" "Email address is already in use").
  assert (Hrun :
    run app (userSignupPost EmailRX r) σ
    = (tt, mkWorld (scs.Remove "flash" (session σ)) d',
       [formDecoder_Decode kUserSignup r; users_Insert name email password;
        sessionManager_PopString "flash";
        w_Page http.StatusUnprocessableEntity "signup.html"
          (with_Form
             (FormUserSignup (AddFieldError checked "email" "Email address is already in use"))
             (freshData (session σ)))])).
  { unfold userSignupPost. step_run. rewrite Hdec. step_run.
    fold checked. rewrite Hvalid. step_run. unfold onDB.
    change (userSignupForm.Name checked) with name.
    change (userSignupForm.Email checked) with email.
    change (userSignupForm.Password checked) with password.
    rewrite Hinsert. step_run. reflexivity. }
  unfold trace, final. rewrite Hrun. cbn [fst snd db].
  split; [reflexivity|]. split; [reflexivity|].
  split; [apply AddFieldError_lookup; exact Hvalid|].
  split; [reflexivity|]. split; [reflexivity|]. split; [reflexivity|].
  intros Hcontract.
  specialize (Hcontract name email password (db σ)).
  rewrite Hinsert in Hcontract. apply Hcontract. reflexivity.
Qed.

Lemma mock_refusesDuplicates : refusesDuplicates (mocks.app false).
Proof.
  intros name email password d. cbn [usersInsert mocks.app]. unfold mocks.UserInsert.
  destruct (existsb (mocks.byEmail email) (mocks.users d)); [reflexivity | discriminate].
Qed.

Lemma signup_duplicate_email_witness :
  let r := mocks.post "name=Alice&email=alice@example.com&password=correct horse" in
  let σ := mkWorld mocks.session0 mocks.db0 in
  let app := mocks.app false in
  formDecoder app kUserSignup r = inr ("Alice", "alice@example.com", "correct horse")
  /\ Valid (userSignupPost_checks mocks.EmailRX
              (fill kUserSignup ("Alice", "alice@example.com", "correct horse"))) = true
  /\ (usersInsert app "Alice" "alice@example.com" "correct horse" (db σ)).1
     = Some ErrDuplicateEmail
  /\ refusesDuplicates app
  /\ exists data form,
      responses (trace app (userSignupPost mocks.EmailRX r) σ)
        = [w_Page http.StatusUnprocessableEntity "signup.html" data]
      /\ Form data = Some (FormUserSignup form)
      /\ validator.FieldErrors (userSignupForm.Validator form) !! "email"
         = Some "Email address is already in use"
      /\ (userSignupForm.Name form, userSignupForm.Email form, userSignupForm.Password form)
         = ("Alice", "alice@example.com", "correct horse")
      /\ dataAccess (trace app (userSignupPost mocks.EmailRX r) σ)
         = [users_Insert "Alice" "alice@example.com" "correct horse"]
      /\ db (final app (userSignupPost mocks.EmailRX r) σ)
         = (usersInsert app "Alice" "alice@example.com" "correct horse" (db σ)).2
      /\ (refusesDuplicates app -> db (final app (userSignupPost mocks.EmailRX r) σ) = db σ).
Proof.
  intros r σ app.
  split; [vm_compute; reflexivity|].
  split; [vm_compute; reflexivity|].
  split; [vm_compute; reflexivity|].
  split; [exact mock_refusesDuplicates|].
  apply (signup_duplicate_email app mocks.EmailRX r σ
           "Alice" "alice@example.com" "correct horse");
    vm_compute; reflexivity.
Defined.

(** On the witness, the user table after the refused signup is the table
    before it. *)
Example signup_duplicate_email_rows :
  let r := mocks.post "name=Alice&email=alice@example.com&password=correct horse" in
  let σ := mkWorld mocks.session0 mocks.db0 in
  mocks.users (db (final (mocks.app false) (userSignupPost mocks.EmailRX r) σ))
  = [mocks.alice].
Proof. vm_compute. reflexivity. Qed.

(** ** Login and logout *)

Lemma GetString_Put_ne key key' val s :
  key <> key' -> scs.GetString key' (scs.Put key val s) = scs.GetString key' s.
Proof.
  intros Hne. unfold scs.GetString, scs.Put; simpl.
  rewrite lookup_insert_ne by assumption. reflexivity.
Qed.

Lemma GetString_RenewToken key s :
  scs.GetString key (scs.RenewToken s) = scs.GetString key s.
Proof. reflexivity. Qed.

(** The run of a successful login: the credentials are accepted and the
    session store rotates the identifier. *)
Lemma userLoginPost_success {DB} (app : application DB)
    (EmailRX : validator.Regexp) (r : Request) (σ : World DB)
    (email password : string) (id : Z) (d' : DB) :
  formDecoder app kUserLogin r = inr (email, password) ->
  Valid (userLoginPost_checks EmailRX (fill kUserLogin (email, password))) = true ->
  usersAuthenticate app email password (db σ) = (inr id, d') ->
  renewTokenError app (session σ) = None ->
  run app (userLoginPost EmailRX r) σ
  = (tt,
     mkWorld (scs.Put "authenticatedUserID" (VInt id) (scs.RenewToken (session σ))) d',
     [formDecoder_Decode kUserLogin r;
      users_Authenticate email password;
      sessionManager_RenewToken;
      sessionManager_Put "authenticatedUserID" (VInt id);
      sessionManager_GetString "targetURL";
      http_Redirect (loginTarget (session σ)) http.StatusSeeOther]).
Proof.
  intros Hdec Hvalid Hauth Hrenew.
  unfold userLoginPost. step_run. rewrite Hdec. step_run.
  rewrite Hvalid. step_run. unfold onDB.
  change (userLoginForm.Email (userLoginPost_checks EmailRX (fill kUserLogin (email, password))))
    with email.
  change (userLoginForm.Password (userLoginPost_checks EmailRX (fill kUserLogin (email, password))))
    with password.
  rewrite Hauth. step_run. cbn [session]. rewrite Hrenew. step_run. cbn [session db].
  rewrite GetString_Put_ne, GetString_RenewToken by discriminate.
  unfold loginTarget.
  repeat case_bool_decide; solve [reflexivity | congruence].
Qed.

(** The run of a login that the data-access layer rejects with the
    invalid-credentials condition. *)
Lemma userLoginPost_invalid_credentials {DB} (app : application DB)
    (EmailRX : validator.Regexp) (r : Request) (σ : World DB)
    (email password : string) (d' : DB) :
  formDecoder app kUserLogin r = inr (email, password) ->
  Valid (userLoginPost_checks EmailRX (fill kUserLogin (email, password))) = true ->
  usersAuthenticate app email password (db σ) = (inl ErrInvalidCredentials, d') ->
  run app (userLoginPost EmailRX r) σ
  = (tt,
     mkWorld (scs.Remove "flash" (session σ)) d',
     [formDecoder_Decode kUserLogin r;
      users_Authenticate email password;
      sessionManager_PopString "flash";
      w_Page http.StatusUnprocessableEntity "login.html"
        (with_Form
           (FormUserLogin
              (AddNonFieldError
                 (userLoginPost_checks EmailRX (fill kUserLogin (email, password)))
                 "Email or password is incorrect"))
           (freshData (session σ)))]).
Proof.
  intros Hdec Hvalid Hauth.
  unfold userLoginPost. step_run. rewrite Hdec. step_run.
  rewrite Hvalid. step_run. unfold onDB.
  change (userLoginForm.Email (userLoginPost_checks EmailRX (fill kUserLogin (email, password))))
    with email.
  change (userLoginForm.Password (userLoginPost_checks EmailRX (fill kUserLogin (email, password))))
    with password.
  rewrite Hauth. step_run. reflexivity.
Qed.

(** The run of a logout, when the session store rotates the identifier. *)
Lemma userLogoutPost_success {DB} (app : application DB) (r : Request) (σ : World DB) :
  renewTokenError app (session σ) = None ->
  run app (userLogoutPost r) σ
  = (tt,
     mkWorld
       (scs.Put "flash" (VString "You've been logged out successfully!")
          (scs.Remove "authenticatedUserID" (scs.RenewToken (session σ))))
       (db σ),
     [sessionManager_RenewToken;
      sessionManager_Remove "authenticatedUserID";
      sessionManager_Put "flash" (VString "You've been logged out successfully!");
      http_Redirect "/" http.StatusSeeOther]).
Proof.
  intros Hrenew. unfold userLogoutPost. step_run. rewrite Hrenew. reflexivity.
Qed.

(** When the store fails to rotate the identifier, the logout is not
    carried out: the handler answers 500 and the world is as it was. *)
Lemma userLogoutPost_renew_failure {DB} (app : application DB) (r : Request) (σ : World DB) err :
  renewTokenError app (session σ) = Some err ->
  run app (userLogoutPost r) σ
  = (tt, σ,
     [sessionManager_RenewToken; errorLog_Print err;
      http_Error http.StatusInternalServerError]).
Proof.
  intros Hrenew. unfold userLogoutPost. step_run. rewrite Hrenew. reflexivity.
Qed.

(** Whatever the outcome of a logout request, "authenticatedUserID" is
    never removed unless the identifier was renewed before. *)
Lemma userLogoutPost_order {DB} (app : application DB) (r : Request) (σ : World DB) :
  existsb (isRemoveKey "authenticatedUserID") (trace app (userLogoutPost r) σ) = true ->
  precedes isRenewToken (isRemoveKey "authenticatedUserID")
    (trace app (userLogoutPost r) σ) = true.
Proof.
  unfold trace.
  destruct (renewTokenError app (session σ)) as [err|] eqn:Hrenew.
  - rewrite (userLogoutPost_renew_failure app r σ err) by assumption.
    cbn. discriminate.
  - rewrite (userLogoutPost_success app r σ) by assumption. reflexivity.
Qed.

(** Whatever the outcome of a login request, "authenticatedUserID" is
    never stored unless the identifier was renewed before. *)
Lemma userLoginPost_order {DB} (app : application DB)
    (EmailRX : validator.Regexp) (r : Request) (σ : World DB) :
  existsb (isPutKey "authenticatedUserID") (trace app (userLoginPost EmailRX r) σ) = true ->
  precedes isRenewToken (isPutKey "authenticatedUserID")
    (trace app (userLoginPost EmailRX r) σ) = true.
Proof.
  unfold trace, userLoginPost. step_run.
  destruct (formDecoder app kUserLogin r) as [err|[email password]] eqn:Hdec;
    step_run; [discriminate|].
  destruct (Valid (userLoginPost_checks EmailRX (fill kUserLogin (email, password))))
    eqn:Hvalid; step_run; [|discriminate].
  unfold onDB.
  destruct (usersAuthenticate app _ _ (db σ)) as [[err|id] d'] eqn:Hauth; step_run.
  - destruct (errors.Is err ErrInvalidCredentials); step_run; discriminate.
  - cbn [session].
    destruct (renewTokenError app (session σ)) as [err|] eqn:Hrenew; step_run.
    + discriminate.
    + cbn [session]. case_bool_decide; reflexivity.
Qed.

(** In every run of [userLoginPost], whatever the answers of the
    collaborators: if "authenticatedUserID" is stored, the session store
    has renewed the identifier, the renewal was called before, and the
    session ends under the new identifier. *)
Lemma userLoginPost_put_renewed {DB} (app : application DB)
    (EmailRX : validator.Regexp) (r : Request) (σ : World DB) :
  existsb (isPutKey "authenticatedUserID") (trace app (userLoginPost EmailRX r) σ) = true ->
  renewTokenError app (session σ) = None
  /\ precedes isRenewToken (isPutKey "authenticatedUserID")
       (trace app (userLoginPost EmailRX r) σ) = true
  /\ token (session (final app (userLoginPost EmailRX r) σ)) = S (token (session σ)).
Proof.
  unfold trace, final, userLoginPost. step_run.
  destruct (formDecoder app kUserLogin r) as [err|[email password]] eqn:Hdec;
    step_run; [discriminate|].
  destruct (Valid (userLoginPost_checks EmailRX (fill kUserLogin (email, password))))
    eqn:Hvalid; step_run; [|discriminate].
  unfold onDB.
  destruct (usersAuthenticate app _ _ (db σ)) as [[err|id] d'] eqn:Hauth; step_run.
  - destruct (errors.Is err ErrInvalidCredentials); step_run; discriminate.
  - cbn [session].
    destruct (renewTokenError app (session σ)) as [err|] eqn:Hrenew; step_run.
    + discriminate.
    + cbn [session]. intros _. case_bool_decide; repeat split.
Qed.

(** In every run of [userLoginPost] in which the session store fails to
    renew the identifier, "authenticatedUserID" is not stored: the key and
    the identifier are what they were. *)
Lemma userLoginPost_renew_failure {DB} (app : application DB)
    (EmailRX : validator.Regexp) (r : Request) (σ : World DB) (err : error) :
  renewTokenError app (session σ) = Some err ->
  existsb (isPutKey "authenticatedUserID") (trace app (userLoginPost EmailRX r) σ) = false
  /\ token (session (final app (userLoginPost EmailRX r) σ)) = token (session σ)
  /\ values (session (final app (userLoginPost EmailRX r) σ)) !! "authenticatedUserID"
     = values (session σ) !! "authenticatedUserID".
Proof.
  intros Hfail.
  unfold trace, final, userLoginPost. step_run.
  destruct (formDecoder app kUserLogin r) as [err'|[email password]] eqn:Hdec;
    step_run; [repeat split|].
  destruct (Valid (userLoginPost_checks EmailRX (fill kUserLogin (email, password))))
    eqn:Hvalid; step_run.
  - unfold onDB.
    destruct (usersAuthenticate app _ _ (db σ)) as [[err'|id] d'] eqn:Hauth; step_run.
    + destruct (errors.Is err' ErrInvalidCredentials); step_run;
        (split; [reflexivity|]); (split; [reflexivity|]);
        try reflexivity; cbn [session values scs.PopString scs.Remove snd];
        apply lookup_delete_ne; discriminate.
    + cbn [session]. rewrite Hfail. step_run. repeat split.
  - (split; [reflexivity|]); (split; [reflexivity|]).
    cbn [session values scs.PopString scs.Remove snd].
    apply lookup_delete_ne. discriminate.
Qed.

(** In every run of [userLogoutPost]: if "authenticatedUserID" is removed,
    the session store has renewed the identifier, the renewal was called
    before, and the session ends under the new identifier. *)
Lemma userLogoutPost_remove_renewed {DB} (app : application DB) (r : Request) (σ : World DB) :
  existsb (isRemoveKey "authenticatedUserID") (trace app (userLogoutPost r) σ) = true ->
  renewTokenError app (session σ) = None
  /\ precedes isRenewToken (isRemoveKey "authenticatedUserID")
       (trace app (userLogoutPost r) σ) = true
  /\ token (session (final app (userLogoutPost r) σ)) = S (token (session σ)).
Proof.
  unfold trace, final.
  destruct (renewTokenError app (session σ)) as [err|] eqn:Hrenew.
  - rewrite (userLogoutPost_renew_failure app r σ err) by assumption.
    cbn. discriminate.
  - rewrite (userLogoutPost_success app r σ) by assumption.
    intros _. repeat split.
Qed.

(** C3: the session identifier is renewed strictly before the
    authentication state changes, in every run.  Login: whenever
    [userLoginPost] stores "authenticatedUserID", the session store has
    renewed the identifier before (the renewal succeeded, its call comes
    strictly before the call that stores the id, and the session ends under
    the new identifier); when the renewal fails nothing is stored; and a
    successful login stores the id [Authenticate] returned.  Logout:
    whenever [userLogoutPost] removes "authenticatedUserID", the store has
    renewed the identifier before; when the renewal fails nothing is
    removed and the session is as it was; and after a logout, which is a
    request whose renewal succeeded, the session no longer contains
    "authenticatedUserID". *)
Theorem session_renewed_before_authentication_change {DB} (app : application DB)
    (EmailRX : validator.Regexp) (r : Request) (σ : World DB) (r' : Request) (σ' : World DB) :
  (* login, every run *)
  (existsb (isPutKey "authenticatedUserID") (trace app (userLoginPost EmailRX r) σ) = true ->
   renewTokenError app (session σ) = None
   /\ precedes isRenewToken (isPutKey "authenticatedUserID")
        (trace app (userLoginPost EmailRX r) σ) = true
   /\ token (session (final app (userLoginPost EmailRX r) σ)) = S (token (session σ)))
  /\ (forall err, renewTokenError app (session σ) = Some err ->
      existsb (isPutKey "authenticatedUserID") (trace app (userLoginPost EmailRX r) σ) = false
      /\ token (session (final app (userLoginPost EmailRX r) σ)) = token (session σ)
      /\ values (session (final app (userLoginPost EmailRX r) σ)) !! "authenticatedUserID"
         = values (session σ) !! "authenticatedUserID")
  (* login, when it succeeds *)
  /\ (forall email password id d',
      formDecoder app kUserLogin r = inr (email, password) ->
      Valid (userLoginPost_checks EmailRX (fill kUserLogin (email, password))) = true ->
      usersAuthenticate app email password (db σ) = (inr id, d') ->
      renewTokenError app (session σ) = None ->
      precedes isRenewToken (isPutKey "authenticatedUserID")
        (trace app (userLoginPost EmailRX r) σ) = true
      /\ token (session (final app (userLoginPost EmailRX r) σ)) = S (token (session σ))
      /\ values (session (final app (userLoginPost EmailRX r) σ)) !! "authenticatedUserID"
         = Some (VInt id))
  (* logout, every run *)
  /\ (existsb (isRemoveKey "authenticatedUserID") (trace app (userLogoutPost r') σ') = true ->
      renewTokenError app (session σ') = None
      /\ precedes isRenewToken (isRemoveKey "authenticatedUserID")
           (trace app (userLogoutPost r') σ') = true
      /\ token (session (final app (userLogoutPost r') σ')) = S (token (session σ')))
  /\ (forall err, renewTokenError app (session σ') = Some err ->
      existsb (isRemoveKey "authenticatedUserID") (trace app (userLogoutPost r') σ') = false
      /\ session (final app (userLogoutPost r') σ') = session σ')
  (* logout, when the renewal succeeds *)
  /\ (renewTokenError app (session σ') = None ->
      precedes isRenewToken (isRemoveKey "authenticatedUserID")
        (trace app (userLogoutPost r') σ') = true
      /\ token (session (final app (userLogoutPost r') σ')) = S (token (session σ'))
      /\ values (session (final app (userLogoutPost r') σ')) !! "authenticatedUserID" = None
      /\ scs.Exists "authenticatedUserID" (session (final app (userLogoutPost r') σ')) = false).
Proof.
  split; [apply userLoginPost_put_renewed|].
  split; [intros err; apply userLoginPost_renew_failure|].
  split.
  { intros email password id d' Hdec Hvalid Hauth Hrenew. unfold trace, final.
    rewrite (userLoginPost_success app EmailRX r σ email password id d') by assumption.
    cbn [fst snd session token values scs.Put scs.RenewToken].
    repeat split. apply lookup_insert_eq. }
  split; [apply userLogoutPost_remove_renewed|].
  split.
  { intros err Hfail. unfold trace, final.
    rewrite (userLogoutPost_renew_failure app r' σ' err) by assumption.
    split; reflexivity. }
  intros Hrenew'. unfold trace, final.
  rewrite (userLogoutPost_success app r' σ') by assumption.
  cbn [fst snd session token values scs.Put scs.Remove scs.RenewToken].
  assert (Hgone :
    <["flash" := VString "You've been logged out successfully!"]>
      (delete "authenticatedUserID" (values (session σ'))) !! "authenticatedUserID" = None).
  { rewrite lookup_insert_ne by discriminate. apply lookup_delete_eq. }
  repeat split.
  - exact Hgone.
  - apply bool_decide_eq_false. intros [v Hv].
    unfold scs.Put, scs.Remove, scs.RenewToken in Hv. cbn [values] in Hv.
    rewrite Hgone in Hv. discriminate.
Qed.

Lemma session_renewed_before_authentication_change_witness :
  let app := mocks.app false in
  let r := mocks.post "email=alice@example.com&password=pa55word!" in
  let σ := mkWorld mocks.session0 mocks.db0 in
  let r' := mocks.post "" in
  let σ' := mkWorld mocks.sessionAlice mocks.db0 in
  existsb (isPutKey "authenticatedUserID") (trace app (userLoginPost mocks.EmailRX r) σ) = true
  /\ existsb (isRemoveKey "authenticatedUserID") (trace app (userLogoutPost r') σ') = true
  /\ formDecoder app kUserLogin r = inr ("alice@example.com", "pa55word!")
  /\ Valid (userLoginPost_checks mocks.EmailRX
              (fill kUserLogin ("alice@example.com", "pa55word!"))) = true
  /\ usersAuthenticate app "alice@example.com" "pa55word!" (db σ) = (inr 1, mocks.db0)
  /\ (renewTokenError app (session σ) = None
      /\ precedes isRenewToken (isPutKey "authenticatedUserID")
           (trace app (userLoginPost mocks.EmailRX r) σ) = true
      /\ token (session (final app (userLoginPost mocks.EmailRX r) σ)) = S (token (session σ)))
  /\ values (session (final app (userLoginPost mocks.EmailRX r) σ)) !! "authenticatedUserID"
     = Some (VInt 1)
  /\ (renewTokenError app (session σ') = None
      /\ precedes isRenewToken (isRemoveKey "authenticatedUserID")
           (trace app (userLogoutPost r') σ') = true
      /\ token (session (final app (userLogoutPost r') σ')) = S (token (session σ')))
  /\ values (session (final app (userLogoutPost r') σ')) !! "authenticatedUserID" = None.
Proof.
  intros app r σ r' σ'.
  destruct (session_renewed_before_authentication_change app mocks.EmailRX r σ r' σ')
    as (Hput & _ & Hlogin & Hremove & _ & Hlogout).
  assert (H1 : existsb (isPutKey "authenticatedUserID")
                 (trace app (userLoginPost mocks.EmailRX r) σ) = true)
    by (vm_compute; reflexivity).
  assert (H2 : existsb (isRemoveKey "authenticatedUserID")
                 (trace app (userLogoutPost r') σ') = true)
    by (vm_compute; reflexivity).
  assert (H3 : formDecoder app kUserLogin r = inr ("alice@example.com", "pa55word!"))
    by (vm_compute; reflexivity).
  assert (H4 : Valid (userLoginPost_checks mocks.EmailRX
                        (fill kUserLogin ("alice@example.com", "pa55word!"))) = true)
    by (vm_compute; reflexivity).
  assert (H5 : usersAuthenticate app "alice@example.com" "pa55word!" (db σ)
               = (inr 1, mocks.db0))
    by (vm_compute; reflexivity).
  split; [exact H1|]. split; [exact H2|]. split; [exact H3|].
  split; [exact H4|]. split; [exact H5|].
  split; [exact (Hput H1)|].
  split; [exact (proj2 (proj2 (Hlogin _ _ _ _ H3 H4 H5 eq_refl)))|].
  split; [exact (Hremove H2)|].
  exact (proj1 (proj2 (proj2 (Hlogout eq_refl)))).
Defined.

(** C4, as stated, fails: after a successful login from a session that
    holds the intended destination "/account/view", the handler has
    redirected there with HTTP 303, and the session still holds the value
    under "targetURL". *)
Lemma login_keeps_targetURL :
  let app := mocks.app false in
  let r := mocks.post "email=alice@example.com&password=pa55word!" in
  let σ := mkWorld mocks.sessionTarget mocks.db0 in
  scs.GetString "targetURL" (session σ) = "/account/view"
  /\ responses (trace app (userLoginPost mocks.EmailRX r) σ)
     = [http_Redirect "/account/view" http.StatusSeeOther]
  /\ values (session (final app (userLoginPost mocks.EmailRX r) σ)) !! "authenticatedUserID"
     = Some (VInt 1)
  /\ values (session (final app (userLoginPost mocks.EmailRX r) σ)) !! "targetURL"
     = Some (VString "/account/view")
  /\ ~ (values (session (final app (userLoginPost mocks.EmailRX r) σ)) !! "targetURL" = None).
Proof.
  intros app r σ.
  assert (Hkept :
    values (session (final app (userLoginPost mocks.EmailRX r) σ)) !! "targetURL"
    = Some (VString "/account/view")) by (vm_compute; reflexivity).
  split; [vm_compute; reflexivity|].
  split; [vm_compute; reflexivity|].
  split; [vm_compute; reflexivity|].
  split; [exact Hkept|].
  rewrite Hkept. discriminate.
Qed.

(** C4, amended: for every successful login, if the session holds a
    non-empty intended destination under "targetURL" the handler issues a
    303 redirect to that URL, otherwise it issues a 303 redirect to
    /snippet/create; the handler reads the value and does not remove it:
    "targetURL" holds after the login what it held before. *)
Theorem login_redirect_target {DB} (app : application DB)
    (EmailRX : validator.Regexp) (r : Request) (σ : World DB)
    (email password : string) (id : Z) (d' : DB) :
  formDecoder app kUserLogin r = inr (email, password) ->
  Valid (userLoginPost_checks EmailRX (fill kUserLogin (email, password))) = true ->
  usersAuthenticate app email password (db σ) = (inr id, d') ->
  renewTokenError app (session σ) = None ->
  (scs.GetString "targetURL" (session σ) <> "" ->
   responses (trace app (userLoginPost EmailRX r) σ)
   = [http_Redirect (scs.GetString "targetURL" (session σ)) http.StatusSeeOther])
  /\ (scs.GetString "targetURL" (session σ) = "" ->
      responses (trace app (userLoginPost EmailRX r) σ)
      = [http_Redirect "/snippet/create" http.StatusSeeOther])
  /\ values (session (final app (userLoginPost EmailRX r) σ)) !! "targetURL"
     = values (session σ) !! "targetURL".
Proof.
  intros Hdec Hvalid Hauth Hrenew.
  unfold trace, final.
  rewrite (userLoginPost_success app EmailRX r σ email password id d') by assumption.
  cbn [fst snd session values scs.Put scs.RenewToken].
  unfold responses, loginTarget.
  split; [|split].
  - intros Htarget. rewrite bool_decide_eq_false_2 by assumption. reflexivity.
  - intros Htarget. rewrite bool_decide_eq_true_2 by assumption. reflexivity.
  - apply lookup_insert_ne. discriminate.
Qed.

Lemma login_redirect_target_witness :
  let app := mocks.app false in
  let r := mocks.post "email=alice@example.com&password=pa55word!" in
  let σ := mkWorld mocks.sessionTarget mocks.db0 in
  formDecoder app kUserLogin r = inr ("alice@example.com", "pa55word!")
  /\ Valid (userLoginPost_checks mocks.EmailRX
              (fill kUserLogin ("alice@example.com", "pa55word!"))) = true
  /\ usersAuthenticate app "alice@example.com" "pa55word!" (db σ) = (inr 1, mocks.db0)
  /\ renewTokenError app (session σ) = None
  /\ (scs.GetString "targetURL" (session σ) <> "" ->
      responses (trace app (userLoginPost mocks.EmailRX r) σ)
      = [http_Redirect (scs.GetString "targetURL" (session σ)) http.StatusSeeOther])
  /\ (scs.GetString "targetURL" (session σ) = "" ->
      responses (trace app (userLoginPost mocks.EmailRX r) σ)
      = [http_Redirect "/snippet/create" http.StatusSeeOther])
  /\ values (session (final app (userLoginPost mocks.EmailRX r) σ)) !! "targetURL"
     = values (session σ) !! "targetURL".
Proof.
  intros app r σ.
  split; [vm_compute; reflexivity|].
  split; [vm_compute; reflexivity|].
  split; [vm_compute; reflexivity|].
  split; [reflexivity|].
  apply (login_redirect_target app mocks.EmailRX r σ
           "alice@example.com" "pa55word!" 1 mocks.db0);
    vm_compute; reflexivity.
Defined.

(** C9, as stated, fails: a login rejected with the invalid-credentials
    condition, from a session that holds a flash message no page has shown
    yet, is answered with the login page and HTTP 422, and the session is
    not what it was: the key "flash" has been removed. *)
Lemma rejected_login_consumes_flash :
  let app := mocks.app false in
  let r := mocks.post "email=alice@example.com&password=not the password" in
  let σ := mkWorld mocks.sessionFlash mocks.db0 in
  (usersAuthenticate app "alice@example.com" "not the password" (db σ)).1
    = inl ErrInvalidCredentials
  /\ (exists data, responses (trace app (userLoginPost mocks.EmailRX r) σ)
                   = [w_Page http.StatusUnprocessableEntity "login.html" data])
  /\ values (session σ) !! "flash" = Some (VString "You've been logged out successfully!")
  /\ values (session (final app (userLoginPost mocks.EmailRX r) σ)) !! "flash" = None
  /\ sessionWrites (trace app (userLoginPost mocks.EmailRX r) σ)
     = [sessionManager_PopString "flash"]
  /\ session (final app (userLoginPost mocks.EmailRX r) σ) <> session σ.
Proof.
  intros app r σ.
  assert (Hrun := userLoginPost_invalid_credentials app mocks.EmailRX r σ
                    "alice@example.com" "not the password" mocks.db0).
  specialize (Hrun ltac:(vm_compute; reflexivity) ltac:(vm_compute; reflexivity)
                ltac:(vm_compute; reflexivity)).
  unfold trace, final. rewrite Hrun. cbn [fst snd session].
  assert (Hgone : values (scs.Remove "flash" (session σ)) !! "flash" = None)
    by apply lookup_delete_eq.
  split; [vm_compute; reflexivity|].
  split; [eexists; reflexivity|].
  split; [vm_compute; reflexivity|].
  split; [exact Hgone|].
  split; [reflexivity|].
  intros Hsame. rewrite Hsame in Hgone. vm_compute in Hgone. discriminate.
Qed.

(** C9, amended: for every login submission rejected with the
    invalid-credentials condition, the handler answers with the login page,
    HTTP 422 and the error "Email or password is incorrect"; it does not
    renew the session token, does not store "authenticatedUserID", and
    writes no session key.  The one change to the session is that showing
    the page consumes the flash message: the key "flash" is removed, every
    other key holds what it held, and a session without a flash message is
    left as it was. *)
Theorem rejected_login_session {DB} (app : application DB)
    (EmailRX : validator.Regexp) (r : Request) (σ : World DB)
    (email password : string) (d' : DB) :
  formDecoder app kUserLogin r = inr (email, password) ->
  Valid (userLoginPost_checks EmailRX (fill kUserLogin (email, password))) = true ->
  usersAuthenticate app email password (db σ) = (inl ErrInvalidCredentials, d') ->
  responses (trace app (userLoginPost EmailRX r) σ)
    = [w_Page http.StatusUnprocessableEntity "login.html"
         (with_Form
            (FormUserLogin
               (AddNonFieldError
                  (userLoginPost_checks EmailRX (fill kUserLogin (email, password)))
                  "Email or password is incorrect"))
            (freshData (session σ)))]
  /\ existsb isRenewToken (trace app (userLoginPost EmailRX r) σ) = false
  /\ existsb (isPutKey "authenticatedUserID") (trace app (userLoginPost EmailRX r) σ) = false
  /\ sessionWrites (trace app (userLoginPost EmailRX r) σ) = [sessionManager_PopString "flash"]
  /\ token (session (final app (userLoginPost EmailRX r) σ)) = token (session σ)
  /\ values (session (final app (userLoginPost EmailRX r) σ))
     = delete "flash" (values (session σ))
  /\ (forall key, key <> "flash" ->
        values (session (final app (userLoginPost EmailRX r) σ)) !! key
        = values (session σ) !! key)
  /\ (values (session σ) !! "flash" = None ->
      session (final app (userLoginPost EmailRX r) σ) = session σ).
Proof.
  intros Hdec Hvalid Hauth.
  unfold trace, final.
  rewrite (userLoginPost_invalid_credentials app EmailRX r σ email password d') by assumption.
  cbn [fst snd session token values scs.Remove].
  repeat split.
  - intros key Hkey. apply lookup_delete_ne. congruence.
  - intros Hnone. destruct (session σ) as [tok vals].
    unfold scs.Remove. cbn [token values] in *.
    rewrite delete_id by assumption. reflexivity.
Qed.

Lemma rejected_login_session_witness :
  let app := mocks.app false in
  let r := mocks.post "email=alice@example.com&password=not the password" in
  let σ := mkWorld mocks.sessionAlice mocks.db0 in
  let h := userLoginPost mocks.EmailRX r in
  formDecoder app kUserLogin r = inr ("alice@example.com", "not the password")
  /\ Valid (userLoginPost_checks mocks.EmailRX
              (fill kUserLogin ("alice@example.com", "not the password"))) = true
  /\ usersAuthenticate app "alice@example.com" "not the password" (db σ)
     = (inl ErrInvalidCredentials, mocks.db0)
  /\ (responses (trace app h σ)
        = [w_Page http.StatusUnprocessableEntity "login.html"
             (with_Form
                (FormUserLogin
                   (AddNonFieldError
                      (userLoginPost_checks mocks.EmailRX
                         (fill kUserLogin ("alice@example.com", "not the password")))
                      "Email or password is incorrect"))
                (freshData (session σ)))]
      /\ existsb isRenewToken (trace app h σ) = false
      /\ existsb (isPutKey "authenticatedUserID") (trace app h σ) = false
      /\ sessionWrites (trace app h σ) = [sessionManager_PopString "flash"]
      /\ token (session (final app h σ)) = token (session σ)
      /\ values (session (final app h σ)) = delete "flash" (values (session σ))
      /\ (forall key, key <> "flash" ->
            values (session (final app h σ)) !! key = values (session σ) !! key)
      /\ (values (session σ) !! "flash" = None -> session (final app h σ) = session σ)).
Proof.
  intros app r σ h.
  split; [vm_compute; reflexivity|].
  split; [vm_compute; reflexivity|].
  split; [vm_compute; reflexivity|].
  apply (rejected_login_session app mocks.EmailRX r σ
           "alice@example.com" "not the password" mocks.db0);
    vm_compute; reflexivity.
Defined.

(** * Further properties of the handlers *)

(** ** Observations, call by call *)

Lemma dataAccess_cons c t :
  dataAccess (c :: t) = if isDataAccess c then c :: dataAccess t else dataAccess t.
Proof. unfold dataAccess. rewrite filter_cons. destruct (isDataAccess c); reflexivity. Qed.

Lemma responses_cons c t :
  responses (c :: t) = if isResponse c then c :: responses t else responses t.
Proof. unfold responses. rewrite filter_cons. destruct (isResponse c); reflexivity. Qed.

Lemma sessionWrites_cons c t :
  sessionWrites (c :: t) = if isSessionWrite c then c :: sessionWrites t else sessionWrites t.
Proof. unfold sessionWrites. rewrite filter_cons. destruct (isSessionWrite c); reflexivity. Qed.

Ltac observe :=
  rewrite ?dataAccess_cons, ?responses_cons, ?sessionWrites_cons;
  cbn [isDataAccess isResponse isSessionWrite];
  change (dataAccess []) with (@nil call);
  change (responses []) with (@nil call);
  change (sessionWrites []) with (@nil call).

(** ** Every handler, every run *)

(** One case for each answer a collaborator can give on the path of a
    handler. *)
Ltac reduce_run :=
  cbn [run bind perform exec onDB onSession decodePostForm newTemplateData render
       clientError notFound serverError scs.PopString session db fst snd negb].

Ltac split_run :=
  repeat (reduce_run; unfold onDB; cbn [session db];
    match goal with
    | |- context [match formDecoder ?a ?k ?r with _ => _ end] =>
        destruct (formDecoder a k r) as [?err|?fields] eqn:?Hdec
    | |- context [negb (Valid ?f)] =>
        destruct (Valid f) eqn:?Hvalid
    | |- context [let (_, _) := snippetsLatest ?a ?d in _] =>
        destruct (snippetsLatest a d) as [[?err|?rows] ?d'] eqn:?Hcall
    | |- context [let (_, _) := snippetsGet ?a ?i ?d in _] =>
        destruct (snippetsGet a i d) as [[?err|?row] ?d'] eqn:?Hcall
    | |- context [let (_, _) := snippetsInsert ?a ?t ?c ?e ?d in _] =>
        destruct (snippetsInsert a t c e d) as [[?err|?id] ?d'] eqn:?Hcall
    | |- context [let (_, _) := usersInsert ?a ?n ?e ?p ?d in _] =>
        destruct (usersInsert a n e p d) as [[?err|] ?d'] eqn:?Hcall
    | |- context [let (_, _) := usersAuthenticate ?a ?e ?p ?d in _] =>
        destruct (usersAuthenticate a e p d) as [[?err|?id] ?d'] eqn:?Hcall
    | |- context [let (_, _) := usersGet ?a ?i ?d in _] =>
        destruct (usersGet a i d) as [[?err|?row] ?d'] eqn:?Hcall
    | |- context [let (_, _) := usersPasswordUpdate ?a ?i ?c ?n ?d in _] =>
        destruct (usersPasswordUpdate a i c n d) as [[?err|] ?d'] eqn:?Hcall
    | |- context [match renewTokenError ?a ?s with _ => _ end] =>
        destruct (renewTokenError a s) as [?err|] eqn:?Hrenew
    | |- context [if errors.Is ?e ?t then _ else _] =>
        destruct (errors.Is e t) eqn:?His
    | |- context [if negb (bool_decide ?P) then _ else _] =>
        destruct (bool_decide P) eqn:?Htarget
    end);
  reduce_run.

Ltac unfold_handlers :=
  unfold ping, home, snippetView, snippetCreate, snippetCreatePost, userSignup,
    userSignupPost, userLogin, userLoginPost, userLogoutPost, about, accountView,
    accountPasswordUpdate, accountPasswordUpdatePost.

Ltac every_run :=
  unfold trace, final;
  match goal with
  | h : handlerName |- _ => destruct h
  end;
  cbn [handlerOf]; unfold_handlers;
  try (destruct (strconv.Atoi _) as [?id ?err] eqn:?Hparsed;
       destruct (isErr _ || (_ <? 1)) eqn:?Hguard);
  split_run.

(** X1: Every handler answers exactly once, whatever the request, the world
    and the answers of its collaborators, and the answer is the last thing
    it does: nothing is read or written, in the session or in the
    datastore, once the response is out. *)
Theorem handler_responds_once {DB} (app : application DB)
    (EmailRX : validator.Regexp) (h : handlerName) (r : Request) (σ : World DB) :
  length (responses (trace app (handlerOf EmailRX h r) σ)) = 1%nat
  /\ exists c, last (trace app (handlerOf EmailRX h r) σ) = Some c /\ isResponse c = true.
Proof.
  every_run; (split; [reflexivity|]); eexists; split; reflexivity.
Qed.

(** X2: No handler calls the data-access layer more than once for a request. *)
Theorem handler_one_data_access {DB} (app : application DB)
    (EmailRX : validator.Regexp) (h : handlerName) (r : Request) (σ : World DB) :
  (length (dataAccess (trace app (handlerOf EmailRX h r) σ)) <= 1)%nat.
Proof.
  every_run; observe; cbn [length]; lia.
Qed.

(** X3: Every redirect a handler issues carries the status 303, and every
    page it renders the status 200 or 422. *)
Theorem handler_status_codes {DB} (app : application DB)
    (EmailRX : validator.Regexp) (h : handlerName) (r : Request) (σ : World DB) (c : call) :
  c ∈ trace app (handlerOf EmailRX h r) σ ->
  match c with
  | http_Redirect _ code => code = http.StatusSeeOther
  | w_Page status _ _ => status = http.StatusOK \/ status = http.StatusUnprocessableEntity
  | _ => True
  end.
Proof.
  every_run; intros Hc;
    repeat (apply elem_of_cons in Hc as [-> | Hc]; [cbn; auto|]);
    apply elem_of_nil in Hc; contradiction.
Qed.

Lemma handler_status_codes_witness :
  let σ := mkWorld mocks.sessionAlice mocks.db0 in
  let t := trace (mocks.app false) (handlerOf mocks.EmailRX hUserLogoutPost (mocks.post "")) σ in
  http_Redirect "/" 303 ∈ t /\ 303 = http.StatusSeeOther.
Proof.
  intros σ t.
  assert (Hin : http_Redirect "/" 303 ∈ t)
    by (vm_compute; repeat (first [apply list_elem_of_here | apply list_elem_of_further])).
  split; [exact Hin|].
  exact (handler_status_codes (mocks.app false) mocks.EmailRX hUserLogoutPost (mocks.post "") σ
           (http_Redirect "/" 303) Hin).
Defined.

(** X4: A flash message is stored only by a request that succeeded: whenever a
    handler puts "flash", it answers with a 303 redirect. *)
Theorem flash_only_on_redirect {DB} (app : application DB)
    (EmailRX : validator.Regexp) (h : handlerName) (r : Request) (σ : World DB) :
  existsb (isPutKey "flash") (trace app (handlerOf EmailRX h r) σ) = true ->
  exists url,
    responses (trace app (handlerOf EmailRX h r) σ) = [http_Redirect url http.StatusSeeOther].
Proof.
  every_run; cbn; intros Hput; try discriminate; eexists; reflexivity.
Qed.

(** X5: "authenticatedUserID" is stored by no handler but [userLoginPost], and
    the session identifier is renewed by no handler but [userLoginPost] and
    [userLogoutPost]. *)
Theorem authentication_state_writers {DB} (app : application DB)
    (EmailRX : validator.Regexp) (h : handlerName) (r : Request) (σ : World DB) :
  (existsb (isPutKey "authenticatedUserID") (trace app (handlerOf EmailRX h r) σ) = true ->
   h = hUserLoginPost)
  /\ (existsb (isRemoveKey "authenticatedUserID") (trace app (handlerOf EmailRX h r) σ) = true ->
      h = hUserLogoutPost)
  /\ (existsb isRenewToken (trace app (handlerOf EmailRX h r) σ) = true ->
      h = hUserLoginPost \/ h = hUserLogoutPost).
Proof.
  every_run; cbn; repeat split; intros Hc; try discriminate; auto.
Qed.

(** X6: The datastore is written by no handler but [snippetCreatePost],
    [userSignupPost] and [accountPasswordUpdatePost], and by those only
    when the submission decodes into a form that passes the checks. *)
Theorem datastore_writers {DB} (app : application DB)
    (EmailRX : validator.Regexp) (h : handlerName) (r : Request) (σ : World DB) :
  existsb isDataWrite (trace app (handlerOf EmailRX h r) σ) = true ->
  (h = hSnippetCreatePost \/ h = hUserSignupPost \/ h = hAccountPasswordUpdatePost)
  /\ exists (k : formKind) (fields : fieldsOf k),
       handlerOf EmailRX h = postHandler EmailRX k
       /\ formDecoder app k r = inr fields
       /\ validOf k (checksOf EmailRX k (fill k fields)) = true.
Proof.
  every_run; cbn [existsb isDataWrite orb]; intros Hc; try discriminate.
  all: split; [auto|].
  all: first
    [ exists kSnippetCreate; eexists; repeat split; eassumption
    | exists kUserSignup; eexists; repeat split; eassumption
    | exists kPasswordUpdate; eexists; repeat split; eassumption ].
Qed.

(** X7: A request answered with an http.Error (400, 404 or 500) leaves the
    session as it was: the identifier and every key. *)
Theorem error_response_keeps_session {DB} (app : application DB)
    (EmailRX : validator.Regexp) (h : handlerName) (r : Request) (σ : World DB) status :
  responses (trace app (handlerOf EmailRX h r) σ) = [http_Error status] ->
  session (final app (handlerOf EmailRX h r) σ) = session σ.
Proof.
  every_run; observe; intros Hc; try discriminate; reflexivity.
Qed.

(** ** The id of a snippet, written and read *)

Lemma digit_of_decimal_char d :
  0 <= d < 10 ->
  strconv.digit (ascii_of_N (Z.to_N (48 + d))) = Some d
  /\ strconv.isSign (ascii_of_N (Z.to_N (48 + d))) = false.
Proof.
  intros Hd.
  assert (Hcases : d = 0 \/ d = 1 \/ d = 2 \/ d = 3 \/ d = 4 \/ d = 5 \/ d = 6
                   \/ d = 7 \/ d = 8 \/ d = 9) by lia.
  repeat (destruct Hcases as [-> | Hcases]; [split; reflexivity|]).
  subst d. split; reflexivity.
Qed.

(** Reading the digits that [decimal] wrote gives the number back. *)
Lemma digits_decimal fuel :
  forall n acc, 0 <= n < 10 ^ Z.of_nat fuel ->
  exists k, 0 <= k /\ forall a,
    strconv.digits (decimal fuel n acc) a = strconv.digits acc (a * 10 ^ k + n).
Proof.
  induction fuel as [|fuel IH]; intros n acc Hn.
  - exists 0. split; [lia|]. intros a. simpl in *. f_equal; lia.
  - cbn [decimal].
    pose proof (Z.mod_pos_bound n 10 ltac:(lia)) as Hmod.
    destruct (digit_of_decimal_char (n mod 10) Hmod) as [Hdigit _].
    destruct (n <? 10) eqn:Hsmall.
    + apply Z.ltb_lt in Hsmall. exists 1. split; [lia|]. intros a.
      cbn [strconv.digits]. rewrite Hdigit.
      rewrite Z.mod_small by lia. f_equal; lia.
    + apply Z.ltb_ge in Hsmall.
      assert (Hdiv : 0 <= n / 10 < 10 ^ Z.of_nat fuel).
      { split; [apply Z.div_pos; lia|].
        apply Z.div_lt_upper_bound; [lia|].
        rewrite Nat2Z.inj_succ, Z.pow_succ_r in Hn by lia. lia. }
      destruct (IH (n / 10) (String (ascii_of_N (Z.to_N (48 + n mod 10))) acc) Hdiv)
        as (k & Hk & Hread).
      exists (k + 1). split; [lia|]. intros a.
      rewrite Hread. cbn [strconv.digits]. rewrite Hdigit. f_equal.
      rewrite Z.pow_add_r, Z.pow_1_r by lia.
      pose proof (Z.div_mod n 10 ltac:(lia)). lia.
Qed.

(** [decimal] writes at least one character, and the first is a digit. *)
Lemma decimal_head fuel :
  forall n acc, 0 <= n -> (0 < fuel)%nat ->
  exists c rest, decimal fuel n acc = String c rest /\ strconv.isSign c = false.
Proof.
  induction fuel as [|fuel IH]; intros n acc Hn Hfuel; [lia|].
  cbn [decimal].
  pose proof (Z.mod_pos_bound n 10 ltac:(lia)) as Hmod.
  destruct (digit_of_decimal_char (n mod 10) Hmod) as [_ Hsign].
  destruct (n <? 10) eqn:Hsmall.
  - eexists _, _. split; [reflexivity | exact Hsign].
  - destruct fuel as [|fuel'].
    + eexists _, _. split; [reflexivity | exact Hsign].
    + apply IH; [apply Z.div_pos; lia | lia].
Qed.

Lemma isSign_minus c : strconv.isSign c = false -> Ascii.eqb c "-"%char = false.
Proof. unfold strconv.isSign. intros H. apply orb_false_elim in H as [H _]. exact H. Qed.

(** The digits of a non-negative [int] are read back as the number. *)
Lemma Atoi_decimal (n : Z) :
  0 <= n <= maxInt ->
  strconv.Atoi (decimal 20 n "") = (n, None).
Proof.
  intros Hrange. unfold maxInt in Hrange.
  destruct (digits_decimal 20 n "" ltac:(simpl; lia)) as (k & _ & Hread).
  destruct (decimal_head 20 n "" ltac:(lia) ltac:(lia)) as (c & rest & Hhead & Hsign).
  specialize (Hread 0). cbn [strconv.digits] in Hread.
  rewrite Hhead in *. cbn [strconv.Atoi]. rewrite Hsign, Hread.
  rewrite (isSign_minus c Hsign).
  replace (0 * 10 ^ k + n) with n by lia.
  destruct (n <? minInt) eqn:Hlow; [apply Z.ltb_lt in Hlow; unfold minInt in Hlow; lia|].
  destruct (maxInt <? n) eqn:Hhigh; [apply Z.ltb_lt in Hhigh; unfold maxInt in Hhigh; lia|].
  reflexivity.
Qed.

(** X8: Round trip: the text [fmt.Sprintf("%d", n)] writes for an [int] is
    read back by [strconv.Atoi] as [n], without error. *)
Theorem Atoi_Sprintf_d (n : Z) :
  minInt <= n <= maxInt ->
  strconv.Atoi (Sprintf_d n) = (n, None).
Proof.
  intros Hrange. unfold Sprintf_d.
  destruct (n <? 0) eqn:Hneg.
  - apply Z.ltb_lt in Hneg. unfold minInt, maxInt in Hrange.
    destruct (digits_decimal 20 (- n) "" ltac:(simpl; lia)) as (k & _ & Hread).
    destruct (decimal_head 20 (- n) "" ltac:(lia) ltac:(lia)) as (c & rest & Hhead & Hsign).
    cbn [strconv.Atoi]. change (strconv.isSign "-"%char) with true. cbv iota.
    specialize (Hread 0). cbn [strconv.digits] in Hread.
    rewrite Hhead in *. rewrite Hread.
    change (Ascii.eqb "-"%char "-"%char) with true. cbv iota.
    replace (0 * 10 ^ k + - n) with (- n) by lia. rewrite Z.opp_involutive.
    destruct (n <? minInt) eqn:Hlow; [apply Z.ltb_lt in Hlow; unfold minInt in Hlow; lia|].
    destruct (maxInt <? n) eqn:Hhigh; [apply Z.ltb_lt in Hhigh; unfold maxInt in Hhigh; lia|].
    reflexivity.
  - apply Z.ltb_ge in Hneg. apply Atoi_decimal. lia.
Qed.

Lemma Atoi_Sprintf_d_witness :
  minInt <= 42 <= maxInt /\ strconv.Atoi (Sprintf_d 42) = (42, None).
Proof.
  split; [unfold minInt, maxInt; lia|].
  apply (Atoi_Sprintf_d 42). unfold minInt, maxInt. lia.
Defined.

Lemma Atoi_range s :
  minInt <= (strconv.Atoi s).1 <= maxInt.
Proof.
  assert (Hbounds : minInt <= 0 <= maxInt /\ minInt <= maxInt)
    by (unfold minInt, maxInt; lia).
  unfold strconv.Atoi.
  destruct s as [|a rest]; cbn [fst]; [lia|].
  destruct (if strconv.isSign a then rest else String a rest) as [|b body] eqn:Hbody;
    cbn [fst]; [lia|].
  destruct (strconv.digits (String b body) 0) as [n|]; cbn [fst]; [|lia].
  destruct (_ <? minInt) eqn:Hlow; cbn [fst]; [lia|].
  destruct (maxInt <? _) eqn:Hhigh; cbn [fst]; [lia|].
  apply Z.ltb_ge in Hlow, Hhigh. lia.
Qed.

(** X9: [snippetView] asks the datastore for nothing but the id its parameter
    spells, and only when that id is at least 1 (and an [int]). *)
Theorem snippetView_queries_positive_id {DB} (app : application DB)
    (r : Request) (σ : World DB) (c : call) :
  c ∈ dataAccess (trace app (snippetView r) σ) ->
  exists id,
    c = snippets_Get id
    /\ strconv.Atoi (httprouter.ByName (httprouter.ParamsFromContext r) "id") = (id, None)
    /\ 1 <= id <= maxInt.
Proof.
  unfold trace, snippetView.
  pose proof (Atoi_range (httprouter.ByName (httprouter.ParamsFromContext r) "id")) as Hrange.
  destruct (strconv.Atoi _) as [id err] eqn:Hparsed. cbn [fst] in Hrange.
  destruct (isErr err || (id <? 1)) eqn:Hguard.
  - reduce_run. observe. intros Hc. apply elem_of_nil in Hc. contradiction.
  - apply orb_false_elim in Hguard as [Herr Hid]. apply Z.ltb_ge in Hid.
    destruct err; [discriminate|].
    split_run; observe; intros Hc;
      apply elem_of_cons in Hc as [-> | Hc];
      try (apply elem_of_nil in Hc; contradiction);
      exists id; repeat split; lia.
Qed.

Lemma snippetView_queries_positive_id_witness :
  let σ := mkWorld mocks.session0 mocks.db0 in
  snippets_Get 1 ∈ dataAccess (trace (mocks.app false) (snippetView (mocks.get "1")) σ)
  /\ exists id,
      snippets_Get 1 = snippets_Get id
      /\ strconv.Atoi
           (httprouter.ByName (httprouter.ParamsFromContext (mocks.get "1")) "id") = (id, None)
      /\ 1 <= id <= maxInt.
Proof.
  intros σ.
  assert (Hin : snippets_Get 1
                ∈ dataAccess (trace (mocks.app false) (snippetView (mocks.get "1")) σ))
    by (vm_compute; left).
  split; [exact Hin|].
  apply (snippetView_queries_positive_id (mocks.app false) (mocks.get "1") σ (snippets_Get 1) Hin).
Defined.

(** X10: What [snippetView] answers once the id is accepted: view.html at 200
    whose snippet ([data.Snippet]) is the one the datastore returned, 404
    for [ErrNoRecord], and 500 for any other failure, which is logged. *)
Theorem snippetView_outcomes {DB} (app : application DB) (r : Request) (σ : World DB) (id : Z) :
  strconv.Atoi (httprouter.ByName (httprouter.ParamsFromContext r) "id") = (id, None) ->
  1 <= id ->
  match (snippetsGet app id (db σ)).1 with
  | inr snippet =>
      responses (trace app (snippetView r) σ)
      = [w_Page http.StatusOK "view.html" (with_Snippet snippet (freshData (session σ)))]
      /\ Snippet (with_Snippet snippet (freshData (session σ))) = Some snippet
  | inl ErrNoRecord =>
      responses (trace app (snippetView r) σ) = [http_Error http.StatusNotFound]
  | inl err =>
      responses (trace app (snippetView r) σ) = [http_Error http.StatusInternalServerError]
      /\ errorLog_Print err ∈ trace app (snippetView r) σ
  end.
Proof.
  intros Hparsed Hid. unfold trace, snippetView. rewrite Hparsed.
  cbn [isErr orb]. destruct (id <? 1) eqn:Hguard; [apply Z.ltb_lt in Hguard; lia|].
  reduce_run. unfold onDB.
  destruct (snippetsGet app id (db σ)) as [[err|snippet] d'] eqn:Hget; cbn [fst].
  - destruct err; reduce_run; observe; try reflexivity;
      (split; [reflexivity | apply elem_of_cons; right; apply elem_of_cons; left; reflexivity]).
  - reduce_run. observe. split; reflexivity.
Qed.

Lemma snippetView_outcomes_witness :
  let σ := mkWorld mocks.session0 mocks.db0 in
  let r := mocks.get "1" in
  strconv.Atoi (httprouter.ByName (httprouter.ParamsFromContext r) "id") = (1, None)
  /\ 1 <= 1
  /\ match (snippetsGet (mocks.app false) 1 (db σ)).1 with
     | inr snippet =>
         responses (trace (mocks.app false) (snippetView r) σ)
         = [w_Page http.StatusOK "view.html" (with_Snippet snippet (freshData (session σ)))]
         /\ Snippet (with_Snippet snippet (freshData (session σ))) = Some snippet
     | inl ErrNoRecord =>
         responses (trace (mocks.app false) (snippetView r) σ) = [http_Error http.StatusNotFound]
     | inl err =>
         responses (trace (mocks.app false) (snippetView r) σ)
         = [http_Error http.StatusInternalServerError]
         /\ errorLog_Print err ∈ trace (mocks.app false) (snippetView r) σ
     end.
Proof.
  intros σ r.
  split; [reflexivity|]. split; [lia|].
  apply (snippetView_outcomes (mocks.app false) r σ 1); [reflexivity | lia].
Defined.

(** X11: The run of [snippetCreatePost] on a valid form: [Insert] receives the
    submitted title, content and expiry as they are, the flash message is
    stored, and the redirect goes to the page of the id [Insert] returned;
    nothing else in the session changes. *)
Theorem snippet_created {DB} (app : application DB) (r : Request) (σ : World DB)
    (title content : string) (expires id : Z) (d' : DB) :
  formDecoder app kSnippetCreate r = inr (title, content, expires) ->
  Valid (snippetCreatePost_checks (fill kSnippetCreate (title, content, expires))) = true ->
  snippetsInsert app title content expires (db σ) = (inr id, d') ->
  trace app (snippetCreatePost r) σ
    = [formDecoder_Decode kSnippetCreate r;
       snippets_Insert title content expires;
       sessionManager_Put "flash" (VString "Snippet successfully created!");
       http_Redirect ("/snippet/view/" ++ Sprintf_d id) http.StatusSeeOther]
  /\ final app (snippetCreatePost r) σ
     = mkWorld (scs.Put "flash" (VString "Snippet successfully created!") (session σ)) d'.
Proof.
  intros Hdec Hvalid Hinsert.
  unfold trace, final, snippetCreatePost. reduce_run. rewrite Hdec. reduce_run.
  rewrite Hvalid. reduce_run. unfold onDB.
  change (snippetCreateForm.Title
            (snippetCreatePost_checks (fill kSnippetCreate (title, content, expires))))
    with title.
  change (snippetCreateForm.Content
            (snippetCreatePost_checks (fill kSnippetCreate (title, content, expires))))
    with content.
  change (snippetCreateForm.Expires
            (snippetCreatePost_checks (fill kSnippetCreate (title, content, expires))))
    with expires.
  rewrite Hinsert. reduce_run. split; reflexivity.
Qed.

Lemma snippet_created_witness :
  let app := mocks.app false in
  let r := mocks.post "title=O snail&content=Climb Mount Fuji&expires=7" in
  let σ := mkWorld mocks.session0 mocks.db0 in
  let d' := mocks.mkDB (mocks.users mocks.db0)
              (mocks.snippets mocks.db0
               ++ [models.mkSnippet 2 "O snail" "Climb Mount Fuji" 0 604800]) in
  formDecoder app kSnippetCreate r = inr ("O snail", "Climb Mount Fuji", 7)
  /\ Valid (snippetCreatePost_checks (fill kSnippetCreate ("O snail", "Climb Mount Fuji", 7)))
     = true
  /\ snippetsInsert app "O snail" "Climb Mount Fuji" 7 (db σ) = (inr 2, d')
  /\ (trace app (snippetCreatePost r) σ
        = [formDecoder_Decode kSnippetCreate r;
           snippets_Insert "O snail" "Climb Mount Fuji" 7;
           sessionManager_Put "flash" (VString "Snippet successfully created!");
           http_Redirect ("/snippet/view/" ++ Sprintf_d 2) http.StatusSeeOther]
      /\ final app (snippetCreatePost r) σ
         = mkWorld (scs.Put "flash" (VString "Snippet successfully created!") (session σ)) d').
Proof.
  intros app r σ d'.
  split; [vm_compute; reflexivity|].
  split; [vm_compute; reflexivity|].
  split; [vm_compute; reflexivity|].
  apply (snippet_created app r σ "O snail" "Climb Mount Fuji" 7 2 d'); vm_compute; reflexivity.
Defined.

(** X12: The redirect of a created snippet leads to its page: a request whose
    id parameter is the text [snippetCreatePost] wrote for the id asks the
    datastore for that very id. *)
Theorem created_snippet_is_viewed {DB} (app : application DB) (σ : World DB)
    (id : Z) (body : string) :
  1 <= id <= maxInt ->
  dataAccess (trace app (snippetView (mkRequest [("id", Sprintf_d id)] body)) σ)
  = [snippets_Get id].
Proof.
  intros Hid. unfold trace, snippetView.
  cbn [httprouter.ParamsFromContext Params httprouter.ByName].
  rewrite bool_decide_eq_true_2 by reflexivity.
  unfold Sprintf_d.
  destruct (id <? 0) eqn:Hneg; [apply Z.ltb_lt in Hneg; lia|].
  rewrite Atoi_decimal by lia.
  cbn [isErr orb]. destruct (id <? 1) eqn:Hguard; [apply Z.ltb_lt in Hguard; lia|].
  split_run; observe; reflexivity.
Qed.

Lemma created_snippet_is_viewed_witness :
  1 <= 2 <= maxInt
  /\ dataAccess (trace (mocks.app false) (snippetView (mkRequest [("id", Sprintf_d 2)] ""))
                   (mkWorld mocks.session0 mocks.db0))
     = [snippets_Get 2].
Proof.
  split; [unfold maxInt; lia|].
  apply (created_snippet_is_viewed (mocks.app false) (mkWorld mocks.session0 mocks.db0) 2 "").
  unfold maxInt. lia.
Defined.

(** X13: [home] shows the snippets [Latest] returned, in their order, and
    answers 500 when [Latest] fails, without reading the session. *)
Theorem home_outcomes {DB} (app : application DB) (r : Request) (σ : World DB) :
  match (snippetsLatest app (db σ)).1 with
  | inr snippets =>
      responses (trace app (home r) σ)
      = [w_Page http.StatusOK "home.html" (with_Snippets snippets (freshData (session σ)))]
      /\ Snippets (with_Snippets snippets (freshData (session σ))) = snippets
  | inl err =>
      trace app (home r) σ
      = [snippets_Latest; errorLog_Print err; http_Error http.StatusInternalServerError]
      /\ session (final app (home r) σ) = session σ
  end.
Proof.
  unfold trace, final, home. reduce_run. unfold onDB.
  destruct (snippetsLatest app (db σ)) as [[err|snippets] d'] eqn:Hlatest; cbn [fst];
    reduce_run; observe; split; reflexivity.
Qed.

(** ** Outages *)

(** X14: When the datastore is down, every handler that reaches it answers
    with HTTP 500 and nothing else (no page, no redirect), the error is
    logged, and the session is left as it was. *)
Theorem datastore_down_500 {DB} (app : application DB) (msg : string)
    (EmailRX : validator.Regexp) (h : handlerName) (r : Request) (σ : World DB) :
  datastoreDown app msg ->
  dataAccess (trace app (handlerOf EmailRX h r) σ) <> [] ->
  responses (trace app (handlerOf EmailRX h r) σ) = [http_Error http.StatusInternalServerError]
  /\ errorLog_Print (ErrOther msg) ∈ trace app (handlerOf EmailRX h r) σ
  /\ session (final app (handlerOf EmailRX h r) σ) = session σ.
Proof.
  intros (HLatest & HGet & HInsert & HUInsert & HAuth & HUGet & HUpdate).
  every_run; observe; intros Hreached; try (contradiction Hreached; reflexivity);
    try match goal with
        | H : snippetsLatest app ?d = _ |- _ =>
            pose proof (HLatest d) as Hdown; rewrite H in Hdown
        | H : snippetsGet app ?i ?d = _ |- _ =>
            pose proof (HGet i d) as Hdown; rewrite H in Hdown
        | H : snippetsInsert app ?t ?c ?e ?d = _ |- _ =>
            pose proof (HInsert t c e d) as Hdown; rewrite H in Hdown
        | H : usersInsert app ?n ?e ?p ?d = _ |- _ =>
            pose proof (HUInsert n e p d) as Hdown; rewrite H in Hdown
        | H : usersAuthenticate app ?e ?p ?d = _ |- _ =>
            pose proof (HAuth e p d) as Hdown; rewrite H in Hdown
        | H : usersGet app ?i ?d = _ |- _ =>
            pose proof (HUGet i d) as Hdown; rewrite H in Hdown
        | H : usersPasswordUpdate app ?i ?c ?n ?d = _ |- _ =>
            pose proof (HUpdate i c n d) as Hdown; rewrite H in Hdown
        end;
    cbn [fst] in *; try discriminate;
    try match goal with
        | H : inl _ = inl _ |- _ => injection H as ->
        | H : Some _ = Some _ |- _ => injection H as ->
        end;
    try match goal with
        | H : errors.Is (ErrOther _) _ = true |- _ => discriminate H
        end;
    (split; [reflexivity|]; split; [|reflexivity]);
    repeat (first [apply list_elem_of_here | apply list_elem_of_further]).
Qed.

Lemma datastore_down_500_witness :
  let σ := mkWorld mocks.session0 mocks.db0 in
  let t := trace mocks.down (handlerOf mocks.EmailRX hHome (mocks.get "")) σ in
  datastoreDown mocks.down "connection refused"
  /\ dataAccess t <> []
  /\ (responses t = [http_Error http.StatusInternalServerError]
      /\ errorLog_Print (ErrOther "connection refused") ∈ t
      /\ session (final mocks.down (handlerOf mocks.EmailRX hHome (mocks.get "")) σ)
         = session σ).
Proof.
  intros σ t.
  assert (Hdown : datastoreDown mocks.down "connection refused")
    by (repeat split; intros; reflexivity).
  assert (Hreached : dataAccess t <> []) by (vm_compute; discriminate).
  split; [exact Hdown|]. split; [exact Hreached|].
  exact (datastore_down_500 mocks.down "connection refused" mocks.EmailRX hHome
           (mocks.get "") σ Hdown Hreached).
Defined.

Lemma flash_only_on_redirect_witness :
  let σ := mkWorld mocks.sessionAlice mocks.db0 in
  let t := trace (mocks.app false) (handlerOf mocks.EmailRX hUserLogoutPost (mocks.post "")) σ in
  existsb (isPutKey "flash") t = true
  /\ exists url, responses t = [http_Redirect url http.StatusSeeOther].
Proof.
  intros σ t.
  split; [vm_compute; reflexivity|].
  apply (flash_only_on_redirect (mocks.app false) mocks.EmailRX hUserLogoutPost
           (mocks.post "") σ).
  vm_compute. reflexivity.
Defined.

Lemma authentication_state_writers_witness :
  let σ := mkWorld mocks.session0 mocks.db0 in
  let r := mocks.post "email=alice@example.com&password=pa55word!" in
  let t := trace (mocks.app false) (handlerOf mocks.EmailRX hUserLoginPost r) σ in
  existsb (isPutKey "authenticatedUserID") t = true
  /\ existsb isRenewToken t = true
  /\ ((existsb (isPutKey "authenticatedUserID") t = true -> hUserLoginPost = hUserLoginPost)
      /\ (existsb (isRemoveKey "authenticatedUserID") t = true ->
          hUserLoginPost = hUserLogoutPost)
      /\ (existsb isRenewToken t = true ->
          hUserLoginPost = hUserLoginPost \/ hUserLoginPost = hUserLogoutPost)).
Proof.
  intros σ r t.
  split; [vm_compute; reflexivity|].
  split; [vm_compute; reflexivity|].
  exact (authentication_state_writers (mocks.app false) mocks.EmailRX hUserLoginPost r σ).
Defined.

Lemma datastore_writers_witness :
  let σ := mkWorld mocks.session0 mocks.db0 in
  let r := mocks.post "title=O snail&content=Climb Mount Fuji&expires=7" in
  let h := hSnippetCreatePost in
  existsb isDataWrite (trace (mocks.app false) (handlerOf mocks.EmailRX h r) σ) = true
  /\ ((h = hSnippetCreatePost \/ h = hUserSignupPost \/ h = hAccountPasswordUpdatePost)
      /\ exists (k : formKind) (fields : fieldsOf k),
           handlerOf mocks.EmailRX h = postHandler mocks.EmailRX k
           /\ formDecoder (mocks.app false) k r = inr fields
           /\ validOf k (checksOf mocks.EmailRX k (fill k fields)) = true).
Proof.
  intros σ r h.
  split; [vm_compute; reflexivity|].
  apply (datastore_writers (mocks.app false) mocks.EmailRX h r σ).
  vm_compute. reflexivity.
Defined.

Lemma error_response_keeps_session_witness :
  let σ := mkWorld mocks.sessionFlash mocks.db0 in
  let h := handlerOf mocks.EmailRX hSnippetView (mocks.get "abc") in
  responses (trace (mocks.app false) h σ) = [http_Error 404]
  /\ session (final (mocks.app false) h σ) = session σ.
Proof.
  intros σ h.
  split; [vm_compute; reflexivity|].
  apply (error_response_keeps_session (mocks.app false) mocks.EmailRX hSnippetView
           (mocks.get "abc") σ 404).
  vm_compute. reflexivity.
Defined.

(** ** Accounts *)

(** X15: The run of [userSignupPost] when the user is created: the flash
    message is stored and the redirect goes to the login page; the new
    user is not logged in: the session identifier and every key but
    "flash" are as before. *)
Theorem signup_success {DB} (app : application DB)
    (EmailRX : validator.Regexp) (r : Request) (σ : World DB)
    (name email password : string) (d' : DB) :
  formDecoder app kUserSignup r = inr (name, email, password) ->
  Valid (userSignupPost_checks EmailRX (fill kUserSignup (name, email, password))) = true ->
  usersInsert app name email password (db σ) = (None, d') ->
  trace app (userSignupPost EmailRX r) σ
    = [formDecoder_Decode kUserSignup r;
       users_Insert name email password;
       sessionManager_Put "flash" (VString "Your signup was successful. Please log in.");
       http_Redirect "/user/login" http.StatusSeeOther]
  /\ db (final app (userSignupPost EmailRX r) σ) = d'
  /\ token (session (final app (userSignupPost EmailRX r) σ)) = token (session σ)
  /\ (forall key, key <> "flash" ->
        values (session (final app (userSignupPost EmailRX r) σ)) !! key
        = values (session σ) !! key).
Proof.
  intros Hdec Hvalid Hinsert.
  unfold trace, final, userSignupPost. reduce_run. rewrite Hdec. reduce_run.
  rewrite Hvalid. reduce_run. unfold onDB.
  change (userSignupForm.Name
            (userSignupPost_checks EmailRX (fill kUserSignup (name, email, password))))
    with name.
  change (userSignupForm.Email
            (userSignupPost_checks EmailRX (fill kUserSignup (name, email, password))))
    with email.
  change (userSignupForm.Password
            (userSignupPost_checks EmailRX (fill kUserSignup (name, email, password))))
    with password.
  rewrite Hinsert. reduce_run. repeat split.
  intros key Hkey. cbn [scs.Put values]. apply lookup_insert_ne. congruence.
Qed.

Lemma signup_success_witness :
  let app := mocks.app false in
  let r := mocks.post "name=Bob&email=bob@example.com&password=correct horse" in
  let σ := mkWorld mocks.session0 mocks.db0 in
  let d' := mocks.mkDB (mocks.users mocks.db0
                        ++ [models.mkUser 2 "Bob" "bob@example.com" "correct horse" 0])
              (mocks.snippets mocks.db0) in
  formDecoder app kUserSignup r = inr ("Bob", "bob@example.com", "correct horse")
  /\ Valid (userSignupPost_checks mocks.EmailRX
              (fill kUserSignup ("Bob", "bob@example.com", "correct horse"))) = true
  /\ usersInsert app "Bob" "bob@example.com" "correct horse" (db σ) = (None, d')
  /\ (trace app (userSignupPost mocks.EmailRX r) σ
        = [formDecoder_Decode kUserSignup r;
           users_Insert "Bob" "bob@example.com" "correct horse";
           sessionManager_Put "flash" (VString "Your signup was successful. Please log in.");
           http_Redirect "/user/login" http.StatusSeeOther]
      /\ db (final app (userSignupPost mocks.EmailRX r) σ) = d'
      /\ token (session (final app (userSignupPost mocks.EmailRX r) σ)) = token (session σ)
      /\ (forall key, key <> "flash" ->
            values (session (final app (userSignupPost mocks.EmailRX r) σ)) !! key
            = values (session σ) !! key)).
Proof.
  intros app r σ d'.
  split; [vm_compute; reflexivity|].
  split; [vm_compute; reflexivity|].
  split; [vm_compute; reflexivity|].
  apply (signup_success app mocks.EmailRX r σ "Bob" "bob@example.com" "correct horse" d');
    vm_compute; reflexivity.
Defined.

Lemma GetInt_missing key s : values s !! key = None -> scs.GetInt key s = 0.
Proof. unfold scs.GetInt. intros ->. reflexivity. Qed.

Lemma GetInt_stored key n s : values s !! key = Some (VInt n) -> scs.GetInt key s = n.
Proof. unfold scs.GetInt. intros ->. reflexivity. Qed.

(** X16: A logout changes two keys only: "authenticatedUserID" is removed and
    "flash" holds the confirmation; every other key of the session, the
    intended destination among them, survives the logout and the renewal
    of the identifier, and the answer is a 303 redirect to the home page. *)
Theorem logout_keeps_other_keys {DB} (app : application DB) (r : Request) (σ : World DB) :
  renewTokenError app (session σ) = None ->
  responses (trace app (userLogoutPost r) σ) = [http_Redirect "/" http.StatusSeeOther]
  /\ values (session (final app (userLogoutPost r) σ)) !! "flash"
     = Some (VString "You've been logged out successfully!")
  /\ (forall key, key <> "authenticatedUserID" -> key <> "flash" ->
        values (session (final app (userLogoutPost r) σ)) !! key
        = values (session σ) !! key)
  /\ db (final app (userLogoutPost r) σ) = db σ.
Proof.
  intros Hrenew. unfold trace, final.
  rewrite (userLogoutPost_success app r σ) by assumption.
  cbn [fst snd session db values scs.Put scs.Remove scs.RenewToken].
  split; [reflexivity|]. split; [apply lookup_insert_eq|]. split; [|reflexivity].
  intros key Hauth Hflash.
  rewrite lookup_insert_ne by congruence. apply lookup_delete_ne. congruence.
Qed.

Lemma logout_keeps_other_keys_witness :
  let app := mocks.app false in
  let σ := mkWorld mocks.sessionTarget mocks.db0 in
  let r := mocks.post "" in
  renewTokenError app (session σ) = None
  /\ (responses (trace app (userLogoutPost r) σ) = [http_Redirect "/" http.StatusSeeOther]
      /\ values (session (final app (userLogoutPost r) σ)) !! "flash"
         = Some (VString "You've been logged out successfully!")
      /\ (forall key, key <> "authenticatedUserID" -> key <> "flash" ->
            values (session (final app (userLogoutPost r) σ)) !! key
            = values (session σ) !! key)
      /\ db (final app (userLogoutPost r) σ) = db σ).
Proof.
  intros app σ r.
  split; [reflexivity|].
  apply (logout_keeps_other_keys app r σ). reflexivity.
Defined.

(** X17: Login, then logout: when both succeed the session holds no
    "authenticatedUserID", its identifier has been rotated twice, and the
    logout has not touched the datastore. *)
Theorem login_then_logout {DB} (app : application DB)
    (EmailRX : validator.Regexp) (r r' : Request) (σ : World DB)
    (email password : string) (id : Z) (d' : DB) :
  formDecoder app kUserLogin r = inr (email, password) ->
  Valid (userLoginPost_checks EmailRX (fill kUserLogin (email, password))) = true ->
  usersAuthenticate app email password (db σ) = (inr id, d') ->
  (forall s, renewTokenError app s = None) ->
  let σ1 := final app (userLoginPost EmailRX r) σ in
  let σ2 := final app (userLogoutPost r') σ1 in
  scs.GetInt "authenticatedUserID" (session σ1) = id
  /\ values (session σ2) !! "authenticatedUserID" = None
  /\ token (session σ2) = S (S (token (session σ)))
  /\ db σ2 = d'.
Proof.
  intros Hdec Hvalid Hauth Hrenew σ1 σ2. subst σ1 σ2. unfold final.
  rewrite (userLoginPost_success app EmailRX r σ email password id d') by auto.
  cbn [fst snd].
  rewrite userLogoutPost_success by apply Hrenew.
  cbn [fst snd session db token values scs.Put scs.Remove scs.RenewToken].
  split; [apply GetInt_stored; cbn [values]; apply lookup_insert_eq|].
  split; [|split; reflexivity].
  rewrite lookup_insert_ne by discriminate. apply lookup_delete_eq.
Qed.

Lemma login_then_logout_witness :
  let app := mocks.app false in
  let r := mocks.post "email=alice@example.com&password=pa55word!" in
  let r' := mocks.post "" in
  let σ := mkWorld mocks.session0 mocks.db0 in
  formDecoder app kUserLogin r = inr ("alice@example.com", "pa55word!")
  /\ Valid (userLoginPost_checks mocks.EmailRX
              (fill kUserLogin ("alice@example.com", "pa55word!"))) = true
  /\ usersAuthenticate app "alice@example.com" "pa55word!" (db σ) = (inr 1, mocks.db0)
  /\ (forall s, renewTokenError app s = None)
  /\ (scs.GetInt "authenticatedUserID"
        (session (final app (userLoginPost mocks.EmailRX r) σ)) = 1
      /\ values (session (final app (userLogoutPost r')
                            (final app (userLoginPost mocks.EmailRX r) σ)))
           !! "authenticatedUserID" = None
      /\ token (session (final app (userLogoutPost r')
                           (final app (userLoginPost mocks.EmailRX r) σ)))
         = S (S (token (session σ)))
      /\ db (final app (userLogoutPost r') (final app (userLoginPost mocks.EmailRX r) σ))
         = mocks.db0).
Proof.
  intros app r r' σ.
  split; [vm_compute; reflexivity|].
  split; [vm_compute; reflexivity|].
  split; [vm_compute; reflexivity|].
  split; [intros s; reflexivity|].
  apply (login_then_logout app mocks.EmailRX r r' σ "alice@example.com" "pa55word!" 1 mocks.db0);
    first [vm_compute; reflexivity | intros s; reflexivity].
Defined.

Lemma accountView_calls {DB} (app : application DB) (r : Request) (σ : World DB) :
  dataAccess (trace app (accountView r) σ)
  = [users_Get (scs.GetInt "authenticatedUserID" (session σ))].
Proof.
  unfold trace, accountView. reduce_run. unfold onDB.
  destruct (usersGet app _ (db σ)) as [[err|user] d'] eqn:Hget.
  - destruct (errors.Is err ErrNoRecord); reduce_run; observe; reflexivity.
  - reduce_run. observe. reflexivity.
Qed.

(** X18: [accountView] looks up the user whose id the session holds under
    "authenticatedUserID" (0 when the session holds none), and answers
    with the account page of that user, with a 303 redirect to the login
    page when no such user exists, and with 500 on any other failure. *)
Theorem accountView_outcomes {DB} (app : application DB) (r : Request) (σ : World DB) :
  let id := scs.GetInt "authenticatedUserID" (session σ) in
  dataAccess (trace app (accountView r) σ) = [users_Get id]
  /\ match (usersGet app id (db σ)).1 with
     | inr user =>
         responses (trace app (accountView r) σ)
         = [w_Page http.StatusOK "account.html" (with_User user (freshData (session σ)))]
         /\ User (with_User user (freshData (session σ))) = Some user
     | inl ErrNoRecord =>
         responses (trace app (accountView r) σ)
         = [http_Redirect "/user/login" http.StatusSeeOther]
     | inl _ =>
         responses (trace app (accountView r) σ) = [http_Error http.StatusInternalServerError]
     end.
Proof.
  intros id. subst id. unfold trace, accountView. reduce_run. unfold onDB.
  destruct (usersGet app _ (db σ)) as [[err|user] d'] eqn:Hget; cbn [fst].
  - destruct err; reduce_run; observe; split; reflexivity.
  - reduce_run. observe. repeat split.
Qed.

(** X19: After a successful login, the account page asks the datastore for the
    user whose id [Authenticate] returned. *)
Theorem login_then_accountView {DB} (app : application DB)
    (EmailRX : validator.Regexp) (r r' : Request) (σ : World DB)
    (email password : string) (id : Z) (d' : DB) :
  formDecoder app kUserLogin r = inr (email, password) ->
  Valid (userLoginPost_checks EmailRX (fill kUserLogin (email, password))) = true ->
  usersAuthenticate app email password (db σ) = (inr id, d') ->
  renewTokenError app (session σ) = None ->
  dataAccess (trace app (accountView r') (final app (userLoginPost EmailRX r) σ))
  = [users_Get id].
Proof.
  intros Hdec Hvalid Hauth Hrenew.
  rewrite accountView_calls. unfold final.
  rewrite (userLoginPost_success app EmailRX r σ email password id d') by assumption.
  cbn [fst snd session].
  rewrite (GetInt_stored "authenticatedUserID" id); [reflexivity|].
  cbn [values scs.Put]. apply lookup_insert_eq.
Qed.

Lemma login_then_accountView_witness :
  let app := mocks.app false in
  let r := mocks.post "email=alice@example.com&password=pa55word!" in
  let σ := mkWorld mocks.session0 mocks.db0 in
  formDecoder app kUserLogin r = inr ("alice@example.com", "pa55word!")
  /\ Valid (userLoginPost_checks mocks.EmailRX
              (fill kUserLogin ("alice@example.com", "pa55word!"))) = true
  /\ usersAuthenticate app "alice@example.com" "pa55word!" (db σ) = (inr 1, mocks.db0)
  /\ renewTokenError app (session σ) = None
  /\ dataAccess (trace app (accountView (mocks.get ""))
                   (final app (userLoginPost mocks.EmailRX r) σ))
     = [users_Get 1].
Proof.
  intros app r σ.
  split; [vm_compute; reflexivity|].
  split; [vm_compute; reflexivity|].
  split; [vm_compute; reflexivity|].
  split; [reflexivity|].
  apply (login_then_accountView app mocks.EmailRX r (mocks.get "") σ
           "alice@example.com" "pa55word!" 1 mocks.db0);
    vm_compute; reflexivity.
Defined.

(** X20: After a logout, the account page asks the datastore for the user 0;
    when the datastore knows no such user, the visitor is sent to the
    login page. *)
Theorem logout_then_accountView {DB} (app : application DB)
    (r r' : Request) (σ : World DB) (d' : DB) :
  renewTokenError app (session σ) = None ->
  usersGet app 0 (db σ) = (inl ErrNoRecord, d') ->
  trace app (accountView r') (final app (userLogoutPost r) σ)
  = [sessionManager_GetInt "authenticatedUserID"; users_Get 0;
     http_Redirect "/user/login" http.StatusSeeOther].
Proof.
  intros Hrenew Hget. unfold final.
  rewrite (userLogoutPost_success app r σ) by assumption. cbn [fst snd].
  unfold trace, accountView. reduce_run. unfold onDB. cbn [session db].
  rewrite (GetInt_missing "authenticatedUserID").
  - rewrite Hget. reduce_run. reflexivity.
  - cbn [values scs.Put scs.Remove scs.RenewToken].
    rewrite lookup_insert_ne by discriminate. apply lookup_delete_eq.
Qed.

Lemma logout_then_accountView_witness :
  let app := mocks.app false in
  let σ := mkWorld mocks.sessionAlice mocks.db0 in
  renewTokenError app (session σ) = None
  /\ usersGet app 0 (db σ) = (inl ErrNoRecord, mocks.db0)
  /\ trace app (accountView (mocks.get "")) (final app (userLogoutPost (mocks.post "")) σ)
     = [sessionManager_GetInt "authenticatedUserID"; users_Get 0;
        http_Redirect "/user/login" http.StatusSeeOther].
Proof.
  intros app σ.
  split; [reflexivity|].
  split; [vm_compute; reflexivity|].
  apply (logout_then_accountView app (mocks.post "") (mocks.get "") σ mocks.db0);
    vm_compute; reflexivity.
Defined.

Lemma accountPasswordUpdatePost_checks_fields form :
  passwordUpdateForm.CurrentPassword (accountPasswordUpdatePost_checks form)
  = passwordUpdateForm.CurrentPassword form
  /\ passwordUpdateForm.NewPassword (accountPasswordUpdatePost_checks form)
     = passwordUpdateForm.NewPassword form.
Proof. split; reflexivity. Qed.

(** The run of a valid password update, up to the answer of the
    datastore: the data-access layer receives the id the session holds
    under "authenticatedUserID", the current password and the new one. *)
Lemma accountPasswordUpdatePost_valid {DB} (app : application DB) (r : Request) (σ : World DB)
    (current new confirm : string) (decoded : validator.Validator) :
  formDecoder app kPasswordUpdate r = inr (current, new, confirm, decoded) ->
  Valid (accountPasswordUpdatePost_checks (fill kPasswordUpdate (current, new, confirm, decoded))) = true ->
  run app (accountPasswordUpdatePost r) σ
  = let id := scs.GetInt "authenticatedUserID" (session σ) in
    let '(err, d') := usersPasswordUpdate app id current new (db σ) in
    let form := accountPasswordUpdatePost_checks (fill kPasswordUpdate (current, new, confirm, decoded)) in
    let calls := [formDecoder_Decode kPasswordUpdate r;
                  sessionManager_GetInt "authenticatedUserID";
                  users_PasswordUpdate id current new] in
    match err with
    | Some ErrInvalidCredentials =>
        (tt, mkWorld (scs.Remove "flash" (session σ)) d',
         (calls ++ [sessionManager_PopString "flash";
                    w_Page http.StatusUnprocessableEntity "password.html"
                      (with_Form
                         (FormPasswordUpdate
                            (AddFieldError form "currentPassword"
                               "Current password is incorrect"))
                         (freshData (session σ)))])%list)
    | Some err =>
        (tt, mkWorld (session σ) d',
         (calls ++ [errorLog_Print err; http_Error http.StatusInternalServerError])%list)
    | None =>
        (tt,
         mkWorld (scs.Put "flash" (VString "Your password has been updated successfully!")
                    (session σ)) d',
         (calls ++ [sessionManager_Put "flash"
                      (VString "Your password has been updated successfully!");
                    http_Redirect "/account/view" http.StatusSeeOther])%list)
    end.
Proof.
  intros Hdec Hvalid.
  unfold accountPasswordUpdatePost. reduce_run. rewrite Hdec. reduce_run.
  rewrite Hvalid. reduce_run. unfold onDB. cbn [session db].
  change (passwordUpdateForm.CurrentPassword
            (accountPasswordUpdatePost_checks (fill kPasswordUpdate (current, new, confirm, decoded))))
    with current.
  change (passwordUpdateForm.NewPassword
            (accountPasswordUpdatePost_checks (fill kPasswordUpdate (current, new, confirm, decoded))))
    with new.
  cbv zeta.
  destruct (usersPasswordUpdate app _ current new (db σ)) as [[err|] d'].
  - destruct err; reduce_run; reflexivity.
  - reduce_run. reflexivity.
Qed.

(** X21: A valid password update changes the password of the user the session
    names: [PasswordUpdate] receives the id held under
    "authenticatedUserID", the current password and the new password; on
    success the flash message is stored, the answer is a 303 redirect to
    the account page, and the user stays logged in under the same session
    identifier. *)
Theorem password_updated {DB} (app : application DB) (r : Request) (σ : World DB)
    (current new confirm : string) (decoded : validator.Validator) (d' : DB) :
  formDecoder app kPasswordUpdate r = inr (current, new, confirm, decoded) ->
  Valid (accountPasswordUpdatePost_checks (fill kPasswordUpdate (current, new, confirm, decoded))) = true ->
  usersPasswordUpdate app (scs.GetInt "authenticatedUserID" (session σ)) current new (db σ)
    = (None, d') ->
  dataAccess (trace app (accountPasswordUpdatePost r) σ)
    = [users_PasswordUpdate (scs.GetInt "authenticatedUserID" (session σ)) current new]
  /\ responses (trace app (accountPasswordUpdatePost r) σ)
     = [http_Redirect "/account/view" http.StatusSeeOther]
  /\ values (session (final app (accountPasswordUpdatePost r) σ)) !! "flash"
     = Some (VString "Your password has been updated successfully!")
  /\ values (session (final app (accountPasswordUpdatePost r) σ)) !! "authenticatedUserID"
     = values (session σ) !! "authenticatedUserID"
  /\ token (session (final app (accountPasswordUpdatePost r) σ)) = token (session σ)
  /\ db (final app (accountPasswordUpdatePost r) σ) = d'.
Proof.
  intros Hdec Hvalid Hupdate. unfold trace, final.
  rewrite (accountPasswordUpdatePost_valid app r σ current new confirm decoded) by assumption.
  cbv zeta. rewrite Hupdate. cbn [fst snd List.app]. observe.
  cbn [session db token values scs.Put].
  repeat split.
  - apply lookup_insert_eq.
  - apply lookup_insert_ne. discriminate.
Qed.

Lemma password_updated_witness :
  let app := mocks.app false in
  let r := mocks.post
             "currentPassword=pa55word!&newPassword=correct horse&newPasswordConfirmation=correct horse" in
  let σ := mkWorld mocks.sessionAlice mocks.db0 in
  let d' := mocks.mkDB [models.mkUser 1 "Alice" "alice@example.com" "correct horse" 0]
              (mocks.snippets mocks.db0) in
  formDecoder app kPasswordUpdate r = inr ("pa55word!", "correct horse", "correct horse", validator.zero)
  /\ Valid (accountPasswordUpdatePost_checks
              (fill kPasswordUpdate ("pa55word!", "correct horse", "correct horse", validator.zero))) = true
  /\ usersPasswordUpdate app (scs.GetInt "authenticatedUserID" (session σ))
       "pa55word!" "correct horse" (db σ) = (None, d')
  /\ (dataAccess (trace app (accountPasswordUpdatePost r) σ)
        = [users_PasswordUpdate (scs.GetInt "authenticatedUserID" (session σ))
             "pa55word!" "correct horse"]
      /\ responses (trace app (accountPasswordUpdatePost r) σ)
         = [http_Redirect "/account/view" http.StatusSeeOther]
      /\ values (session (final app (accountPasswordUpdatePost r) σ)) !! "flash"
         = Some (VString "Your password has been updated successfully!")
      /\ values (session (final app (accountPasswordUpdatePost r) σ)) !! "authenticatedUserID"
         = values (session σ) !! "authenticatedUserID"
      /\ token (session (final app (accountPasswordUpdatePost r) σ)) = token (session σ)
      /\ db (final app (accountPasswordUpdatePost r) σ) = d').
Proof.
  intros app r σ d'.
  split; [vm_compute; reflexivity|].
  split; [vm_compute; reflexivity|].
  split; [vm_compute; reflexivity|].
  apply (password_updated app r σ "pa55word!" "correct horse" "correct horse" validator.zero d');
    vm_compute; reflexivity.
Defined.

(** X22: A valid password update that the data-access layer rejects with the
    invalid-credentials condition shows password.html again with HTTP 422;
    the form of the page ([data.Form]) holds the submitted values and the
    error "Current password is incorrect" under "currentPassword"; no flash
    message is stored and the user stays logged in. *)
Theorem password_update_wrong_current {DB} (app : application DB) (r : Request) (σ : World DB)
    (current new confirm : string) (decoded : validator.Validator) (d' : DB) :
  formDecoder app kPasswordUpdate r = inr (current, new, confirm, decoded) ->
  Valid (accountPasswordUpdatePost_checks (fill kPasswordUpdate (current, new, confirm, decoded))) = true ->
  usersPasswordUpdate app (scs.GetInt "authenticatedUserID" (session σ)) current new (db σ)
    = (Some ErrInvalidCredentials, d') ->
  exists data form,
    responses (trace app (accountPasswordUpdatePost r) σ)
      = [w_Page http.StatusUnprocessableEntity "password.html" data]
    /\ Form data = Some (FormPasswordUpdate form)
    /\ validator.FieldErrors (passwordUpdateForm.Validator form) !! "currentPassword"
       = Some "Current password is incorrect"
    /\ (passwordUpdateForm.CurrentPassword form, passwordUpdateForm.NewPassword form,
        passwordUpdateForm.ConfirmPassword form) = (current, new, confirm)
    /\ existsb (isPutKey "flash") (trace app (accountPasswordUpdatePost r) σ) = false
    /\ values (session (final app (accountPasswordUpdatePost r) σ)) !! "authenticatedUserID"
       = values (session σ) !! "authenticatedUserID".
Proof.
  intros Hdec Hvalid Hupdate.
  exists (with_Form
            (FormPasswordUpdate
               (AddFieldError
                  (accountPasswordUpdatePost_checks
                     (fill kPasswordUpdate (current, new, confirm, decoded)))
                  "currentPassword" "Current password is incorrect"))
            (freshData (session σ))).
  exists (AddFieldError
            (accountPasswordUpdatePost_checks
               (fill kPasswordUpdate (current, new, confirm, decoded)))
            "currentPassword" "Current password is incorrect").
  unfold trace, final.
  rewrite (accountPasswordUpdatePost_valid app r σ current new confirm decoded) by assumption.
  cbv zeta. rewrite Hupdate. cbn [fst snd List.app]. observe.
  cbn [session values scs.Remove].
  split; [reflexivity|]. split; [reflexivity|].
  split; [apply AddFieldError_lookup; exact Hvalid|].
  split; [reflexivity|]. split; [reflexivity|].
  apply lookup_delete_ne. discriminate.
Qed.

Lemma password_update_wrong_current_witness :
  let app := mocks.app false in
  let r := mocks.post
             "currentPassword=guess&newPassword=correct horse&newPasswordConfirmation=correct horse" in
  let σ := mkWorld mocks.sessionAlice mocks.db0 in
  formDecoder app kPasswordUpdate r = inr ("guess", "correct horse", "correct horse", validator.zero)
  /\ Valid (accountPasswordUpdatePost_checks
              (fill kPasswordUpdate ("guess", "correct horse", "correct horse", validator.zero))) = true
  /\ usersPasswordUpdate app (scs.GetInt "authenticatedUserID" (session σ))
       "guess" "correct horse" (db σ) = (Some ErrInvalidCredentials, mocks.db0)
  /\ exists data form,
      responses (trace app (accountPasswordUpdatePost r) σ)
        = [w_Page http.StatusUnprocessableEntity "password.html" data]
      /\ Form data = Some (FormPasswordUpdate form)
      /\ validator.FieldErrors (passwordUpdateForm.Validator form) !! "currentPassword"
         = Some "Current password is incorrect"
      /\ (passwordUpdateForm.CurrentPassword form, passwordUpdateForm.NewPassword form,
          passwordUpdateForm.ConfirmPassword form) = ("guess", "correct horse", "correct horse")
      /\ existsb (isPutKey "flash") (trace app (accountPasswordUpdatePost r) σ) = false
      /\ values (session (final app (accountPasswordUpdatePost r) σ)) !! "authenticatedUserID"
         = values (session σ) !! "authenticatedUserID".
Proof.
  intros app r σ.
  split; [vm_compute; reflexivity|].
  split; [vm_compute; reflexivity|].
  split; [vm_compute; reflexivity|].
  apply (password_update_wrong_current app r σ "guess" "correct horse" "correct horse"
           validator.zero mocks.db0);
    vm_compute; reflexivity.
Defined.

(** ** The keys of the session *)

(** X23: The handlers write two keys of the session and no other: whatever the
    handler and the run, every key but "flash" and "authenticatedUserID"
    (the intended destination "targetURL" among them) holds after the
    request what it held before. *)
Theorem handlers_keep_other_keys {DB} (app : application DB)
    (EmailRX : validator.Regexp) (h : handlerName) (r : Request) (σ : World DB) (key : string) :
  key <> "flash" -> key <> "authenticatedUserID" ->
  values (session (final app (handlerOf EmailRX h r) σ)) !! key = values (session σ) !! key.
Proof.
  intros Hflash Hauth.
  every_run;
    cbn [session values scs.Put scs.Remove scs.RenewToken];
    rewrite ?lookup_insert_ne, ?lookup_delete_ne by congruence;
    reflexivity.
Qed.

Lemma handlers_keep_other_keys_witness :
  let σ := mkWorld mocks.sessionTarget mocks.db0 in
  let r := mocks.post "email=alice@example.com&password=pa55word!" in
  "targetURL" <> "flash" /\ "targetURL" <> "authenticatedUserID"
  /\ values (session (final (mocks.app false) (handlerOf mocks.EmailRX hUserLoginPost r) σ))
       !! "targetURL"
     = values (session σ) !! "targetURL".
Proof.
  intros σ r.
  split; [discriminate|]. split; [discriminate|].
  apply (handlers_keep_other_keys (mocks.app false) mocks.EmailRX hUserLoginPost r σ "targetURL");
    discriminate.
Defined.
